(** * mastodon-posting: the configuration lifecycle of [MastodonClientApp]

    A shallow embedding of [mastodon_api_cleaned.py].  Python objects are
    values of an inductive type, dictionaries are finite maps, the instance
    attributes of [self] are a finite map from attribute names to objects,
    and the methods are computations in a state-and-exception monad whose
    state holds [self], the file system and the trace of the calls made to
    the outside world (the YAML files and the Mastodon client library). *)

From stdpp Require Import gmap strings list fin_maps.
From Stdlib Require Import ZArith.

Set Warnings "-register-all".
Open Scope string_scope.

(** ** Python values *)

(** What [yaml.safe_load] can return and what the code builds on top of it.
    [VDict] is a plain [dict]; [VAttr] is Mastodon.py's [AttribAccessDict],
    a [dict] subclass whose keys can also be read as attributes.  [VScalar]
    stands for every other YAML scalar (float, timestamp, binary), kept by
    its text and its truth value.  The keys of a mapping are strings, as
    they are in a configuration file. *)
Inductive value : Type :=
| VNone
| VBool (b : bool)
| VInt (z : Z)
| VStr (s : string)
| VScalar (repr : string) (truth : bool)
| VList (l : list value)
| VDict (m : gmap string value)
| VAttr (m : gmap string value).

Definition path := string.

(** The exceptions the code can meet.  The two [raise ValueError(f"...")] of
    [__init__] and the one on the duplicated base URL are told apart by what
    their message is formatted from. *)
Inductive value_error : Type :=
| NoSuchDirectory (p : path)
| NoSuchFile (p : path)
| AlreadyHaveBaseUrl (url : value).

Inductive exn : Type :=
| ValueError (why : value_error)
| AttributeError (name : string)
| AssertionError
| KeyError (key : string)
| TypeError
| YAMLError
| FileNotFoundError (p : path)
| MastodonError (detail : string).

(** The spec's [ConfigurationError] is the code's [ValueError]; its
    [RemoteServiceError] is the library's [MastodonError]. *)
Definition ConfigurationError (e : exn) : Prop :=
  match e with ValueError _ => True | _ => False end.

Definition RemoteServiceError (e : exn) : Prop :=
  match e with MastodonError _ => True | _ => False end.

(** Python truth value: [None], [False], [0], [""], [[]] and [{}] are false. *)
Definition truthy (v : value) : bool :=
  match v with
  | VNone => false
  | VBool b => b
  | VInt z => negb (Z.eqb z 0)
  | VStr s => negb (String.eqb s "")
  | VScalar _ t => t
  | VList l => match l with [] => false | _ => true end
  | VDict m | VAttr m => negb (Nat.eqb (size m) 0)
  end.

(** [v is None] *)
Definition is_none (v : value) : bool :=
  match v with VNone => true | _ => false end.

(** [isinstance(v, dict)]: [AttribAccessDict] is a subclass of [dict]. *)
Definition isinstance_dict (v : value) : bool :=
  match v with VDict _ | VAttr _ => true | _ => false end.

(** [AttribAccessDict(v)] for a mapping [v]: a shallow copy, the values
    inside are the same objects. *)
Definition AttribAccessDict (v : value) : value :=
  match v with VDict m | VAttr m => VAttr m | _ => v end.

(** The names Python resolves on the class before it looks at the keys:
    the methods of [dict] and the names with two leading underscores. *)
Definition dict_attribute (name : string) : bool :=
  String.prefix "__" name
  || bool_decide (name ∈ ["clear"; "copy"; "fromkeys"; "get"; "items"; "keys";
                          "pop"; "popitem"; "setdefault"; "update"; "values"]).

(** [v.name] for a name that is not a [dict_attribute] (the code reads
    [instance], [base_url] and [id]): [AttribAccessDict.__getattr__] returns
    [self[name]] when the key is there and raises [AttributeError]
    otherwise; no other value has such an attribute. *)
Definition py_getattr (v : value) (name : string) : exn + value :=
  match v with
  | VAttr m =>
      match m !! name with
      | Some x => inr x
      | None => inl (AttributeError name)
      end
  | _ => inl (AttributeError name)
  end.

(** [v.get(key, dflt)]: only mappings have [get]. *)
Definition py_get (v : value) (key : string) (dflt : value) : exn + value :=
  match v with
  | VDict m | VAttr m => inr (default dflt (m !! key))
  | _ => inl (AttributeError "get")
  end.

(** [v[key]] *)
Definition py_getitem (v : value) (key : string) : exn + value :=
  match v with
  | VDict m | VAttr m =>
      match m !! key with
      | Some x => inr x
      | None => inl (KeyError key)
      end
  | _ => inl TypeError
  end.

(** [v[key] = x]: the mapping [v] is updated in place and keeps its class. *)
Definition py_setitem (v : value) (key : string) (x : value) : exn + value :=
  match v with
  | VDict m => inr (VDict (<[key := x]> m))
  | VAttr m => inr (VAttr (<[key := x]> m))
  | _ => inl TypeError
  end.

(** An optional [str] argument as a Python value. *)
Definition of_opt_str (o : option string) : value :=
  match o with Some s => VStr s | None => VNone end.

(** ** The outside world *)

(** A call of a method of the Mastodon client: positional and keyword
    arguments, as written at the call site. *)
Record call : Type := Call {
  c_method : string;
  c_args : list value;
  c_kwargs : gmap string value;
}.

(** Everything the code does to the outside world, in order. *)
Inductive event : Type :=
| ERead (p : path)                              (* [p.open("r")] *)
| EWrite (p : path) (text : string)             (* [p.open("w").write(text)] *)
| ENew (kwargs : gmap string value)             (* [Mastodon(...)], keywords only *)
| ECall (client : gmap string value) (c : call) (* a method of that client *)
| ERegister (base_url : value).                 (* the registration collaborator *)

(** The collaborators: the home and the current directory, PyYAML and the
    Mastodon library.  Each answer may depend on the calls made before;
    [credentials_text] is what the library writes to the file that [log_in]
    is given as [to_file], for the token it returns. *)
Record Env : Type := {
  home : path;
  cwd : path;
  credentials_text : gmap string value -> value -> string;
  yaml_safe_load : string -> exn + value;
  yaml_safe_dump : value -> exn + string;
  Mastodon : list event -> gmap string value -> exn + unit;
  Mastodon_call : list event -> gmap string value -> call -> exn + value;
  register_application : list event -> value -> exn + (value * value);
}.

Record FileSystem : Type := {
  dirs : gset path;
  files : gmap path string;
}.

(** What an instance attribute of [self] can hold. *)
Inductive pyobj : Type :=
| OValue (v : value)
| OPath (p : path)
| OClient (kwargs : gmap string value).

Record St : Type := {
  self : gmap string pyobj;
  fs : FileSystem;
  trace : list event;
}.

(** ** The monad of the methods *)

Definition M (A : Type) : Type := Env -> St -> (exn + A) * St.

#[global] Instance M_ret : MRet M := fun A a _ st => (inr a, st).

#[global] Instance M_bind : MBind M := fun A B k m env st =>
  match m env st with
  | (inl e, st') => (inl e, st')
  | (inr a, st') => k a env st'
  end.

Definition raise {A} (e : exn) : M A := fun _ st => (inl e, st).

Definition lift {A} (r : exn + A) : M A := fun _ st => (r, st).

Definition ask : M Env := fun env st => (inr env, st).

Definition emit (ev : event) : M unit := fun _ st =>
  (inr tt, {| self := self st; fs := fs st; trace := trace st ++ [ev] |}).

Definition history : M (list event) := fun _ st => (inr (trace st), st).

(** [self.name] *)
Definition get_attr (name : string) : M pyobj := fun _ st =>
  match self st !! name with
  | Some o => (inr o, st)
  | None => (inl (AttributeError name), st)
  end.

(** [self.name = o] *)
Definition set_attr (name : string) (o : pyobj) : M unit := fun _ st =>
  (inr tt, {| self := <[name := o]> (self st); fs := fs st; trace := trace st |}).

Definition as_value (o : pyobj) : M value :=
  match o with OValue v => mret v | _ => raise TypeError end.

Definition as_path (o : pyobj) : M path :=
  match o with OPath p => mret p | _ => raise TypeError end.

Definition as_client (o : pyobj) : M (gmap string value) :=
  match o with OClient k => mret k | _ => raise (AttributeError "method") end.

(** [p / name] *)
Definition path_join (p : path) (name : string) : path := p ++ "/" ++ name.

(** [p.is_dir()], [p.is_file()] *)
Definition is_dir (p : path) : M bool := fun _ st =>
  (inr (bool_decide (p ∈ dirs (fs st))), st).

Definition is_file (p : path) : M bool := fun _ st =>
  (inr (match files (fs st) !! p with Some _ => true | None => false end), st).

(** [p.open("r")] and reading it; the caller has checked [is_file]. *)
Definition read_file (p : path) : M string := fun env st =>
  match files (fs st) !! p with
  | Some text => (inr text, (emit (ERead p) env st).2)
  | None => (inl (FileNotFoundError p), st)
  end.

(** [p.open("w").write(text)]: the file is created or truncated. *)
Definition write_file (p : path) (text : string) : M unit := fun _ st =>
  (inr tt,
   {| self := self st;
      fs := {| dirs := dirs (fs st); files := <[p := text]> (files (fs st)) |};
      trace := trace st ++ [EWrite p text] |}).

(** [if b: body] *)
Definition when (b : bool) (body : M unit) : M unit :=
  if b then body else mret tt.

(** Calling a method of the client: the call is recorded, then the library
    answers or raises. *)
Definition client_call (client : gmap string value) (c : call) : M value :=
  h ← history;
  env ← ask;
  emit (ECall client c);;
  lift (Mastodon_call env h client c).

(** What the library does to the disk on its own account: the file [p] is
    created or truncated and holds [text]. *)
Definition library_write (p : path) (text : string) : M unit := fun _ st =>
  (inr tt,
   {| self := self st;
      fs := {| dirs := dirs (fs st); files := <[p := text]> (files (fs st)) |};
      trace := trace st |}).

(** [client.log_in(username, password=password, to_file=to_file)]: the
    call, and when it succeeds the library saves the credentials it
    obtained in the file [to_file], a name resolved in the current
    directory, before it returns the token.  The write is taken to
    succeed; when the call raises, nothing is written. *)
Definition log_in (client : gmap string value) (username password : value)
    (to_file : string) : M value :=
  token ← client_call client
            (Call "log_in" [username]
               {[ "password" := password; "to_file" := VStr to_file ]});
  env ← ask;
  library_write (path_join (cwd env) to_file)
    (credentials_text env client token);;
  mret token.

(** ** The class [MastodonClientApp] *)

Definition APPLICATION_NAME : string := "my-app-name".

(** [self.config] *)
Definition get_config : M value := get_attr "config" ≫= as_value.

(** [self.config[key] = x]: [self.config] is mutated in place. *)
Definition setitem_config (key : string) (x : value) : M unit :=
  c ← get_config;
  c' ← lift (py_setitem c key x);
  set_attr "config" (OValue c').

(** The loop of [_load_config]: [for (k, v) in data.items()], replacing in
    [data] every value that is a mapping by an [AttribAccessDict] of it. *)
Definition load_loop (data : gmap string value) : gmap string value :=
  map_fold
    (fun k v acc =>
       if isinstance_dict v then <[k := AttribAccessDict v]> acc else acc)
    data data.

(** [_load_config] (lines 178-188): an empty document counts as [{}], and
    a document that is not a mapping has no [items]. *)
Definition _load_config : M unit :=
  f ← get_attr "config_file" ≫= as_path;
  text ← read_file f;
  env ← ask;
  data ← lift (yaml_safe_load env text);
  let data := if is_none data then VDict ∅ else data in
  data ← match data with
         | VDict m => mret (VDict (load_loop m))
         | VAttr m => mret (VAttr (load_loop m))
         | _ => raise (AttributeError "items")
         end;
  set_attr "config" (OValue (AttribAccessDict data)).

(** [_save_config] dumps [self.data] and writes the text to the file.  The
    formatting options of [yaml.safe_dump] are part of the serialiser. *)
Definition _save_config : M unit :=
  data ← get_attr "data" ≫= as_value;
  env ← ask;
  output ← lift (yaml_safe_dump env data);
  f ← get_attr "config_file" ≫= as_path;
  write_file f output.

(** Modelled from the spec: the method [register_app], which [__init__]
    calls and the source file does not define.  Spec 4.1, step 3: "invoke
    the external registration collaborator to obtain client_id/client_secret,
    storing them into application"; the collaborator is
    [register_application(instance_url) -> (client_id, client_secret)]. *)
Definition register_app : M unit :=
  c ← get_config;
  inst ← lift (py_getattr c "instance");
  url ← lift (py_getattr inst "base_url");
  h ← history;
  env ← ask;
  emit (ERegister url);;
  ids ← lift (register_application env h url);
  setitem_config "application"
    (VAttr {[ "client_id" := ids.1; "client_secret" := ids.2 ]}).

(** [connect] (lines 110-121).  [orig_connect], the method it replaced, is
    never called and is left out. *)
Definition connect : M unit :=
  c ← get_config;
  inst ← lift (py_getattr c "instance");
  url ← lift (py_getattr inst "base_url");
  let kwargs : gmap string value :=
    {[ "client_id" := VStr "my-application-clientcred.secret";
       "api_base_url" := url ]} in
  h ← history;
  env ← ask;
  emit (ENew kwargs);;
  lift (Mastodon env h kwargs);;
  set_attr "mastodon" (OClient kwargs);;
  m ← get_attr "mastodon" ≫= as_client;
  r ← log_in m (VStr "<email>") (VStr "<password>")
        "my-application-usercred.secret";
  m ← get_attr "mastodon" ≫= as_client;
  u ← client_call m (Call "me" [] ∅);
  set_attr "user" (OValue u).

(** [__init__] (lines 26-56), statement by statement.  The [assert] of
    line 46 is executed, as it is unless Python runs with [-O]. *)
Definition __init__ (config_dir : option path) (base_url : option string)
  : M unit :=
  env ← ask;
  set_attr "config_dir"
    (OPath (match config_dir with
            | Some d => d
            | None => path_join (path_join (home env) ".config") APPLICATION_NAME
            end));;
  d ← get_attr "config_dir" ≫= as_path;
  set_attr "config_file" (OPath (path_join d "config.yaml"));;
  d ← get_attr "config_dir" ≫= as_path;
  isd ← is_dir d;
  when (negb isd) (raise (ValueError (NoSuchDirectory d)));;
  f ← get_attr "config_file" ≫= as_path;
  isf ← is_file f;
  when (negb isf) (raise (ValueError (NoSuchFile f)));;
  _load_config;;
  c ← get_config;
  inst ← lift (py_getattr c "instance");
  url ← lift (py_getattr inst "base_url");
  when (truthy url && truthy (of_opt_str base_url))
    (raise (ValueError (AlreadyHaveBaseUrl url)));;
  c ← get_config;
  app ← lift (py_get c "application" (VDict ∅));
  cid ← lift (py_get app "client_id" VNone);
  when (negb (truthy cid))
    (c ← get_config;
     i ← lift (py_get c "instance" VNone);
     when (negb (is_none i)) (raise AssertionError);;
     setitem_config "instance" (VAttr ∅);;
     c ← get_config;
     i ← lift (py_getitem c "instance");
     i' ← lift (py_setitem i "base_url" (of_opt_str base_url));
     setitem_config "instance" i';;
     register_app);;
  c ← get_config;
  u ← lift (py_get c "user" VNone);
  when (negb (truthy u)) (setitem_config "user" (VAttr ∅));;
  connect;;
  _save_config.

(** [get_statuses] (lines 123-176) *)
Definition get_statuses (limit : Z) : M value :=
  m ← get_attr "mastodon" ≫= as_client;
  u ← get_attr "user" ≫= as_value;
  uid ← lift (py_getattr u "id");
  client_call m
    (Call "account_statuses" [uid]
       {[ "only_media" := VBool false;
          "pinned" := VBool false;
          "exclude_replies" := VBool true;
          "exclude_reblogs" := VBool true;
          "tagged" := VNone;
          "max_id" := VNone;
          "min_id" := VNone;
          "since_id" := VNone;
          "limit" := VInt limit ]}).

(** Modelled from the spec: the dataclass [Message], which [post_toot]
    takes and the source file does not define.  Spec 3, OutgoingMessage:
    "text, optional reply-target id, visibility"; these are the three
    attributes [post_toot] reads. *)
Record Message : Type := {
  text : value;
  in_reply_to_id : value;
  visibility : value;
}.

(** [post_toot] (lines 200-216) *)
Definition post_toot (message : Message) : M value :=
  m ← get_attr "mastodon" ≫= as_client;
  client_call m
    (Call "status_post" [text message]
       {[ "in_reply_to_id" := in_reply_to_id message;
          "visibility" := visibility message;
          "language" := VStr "en" ]}).

(** [MastodonClientApp(config_dir, base_url)]: [__init__] on a new object. *)
Definition MastodonClientApp (env : Env) (disk : FileSystem)
    (config_dir : option path) (base_url : option string) : (exn + unit) * St :=
  __init__ config_dir base_url env {| self := ∅; fs := disk; trace := [] |}.

(** ** A concrete world

    A home directory with a configuration directory, three configuration
    files, a YAML library that knows their texts, and a Mastodon server that
    accepts every call. *)
Module Demo.

Definition ready_text : string :=
  "{instance: {base_url: 'https://example.social'}, application: {client_id: abc, client_secret: xyz}, user: {username: alice, password: s3cret}}".

Definition ready_doc : value :=
  VDict {[ "instance" := VDict {[ "base_url" := VStr "https://example.social" ]};
           "application" := VDict {[ "client_id" := VStr "abc";
                                     "client_secret" := VStr "xyz" ]};
           "user" := VDict {[ "username" := VStr "alice";
                              "password" := VStr "s3cret" ]} ]}.

(** A first-run file: credentials only, no instance, no application. *)
Definition first_run_text : string :=
  "{user: {username: alice, password: s3cret}}".

Definition first_run_doc : value :=
  VDict {[ "user" := VDict {[ "username" := VStr "alice";
                              "password" := VStr "s3cret" ]} ]}.

(** A file with an instance section and no application section. *)
Definition stale_text : string :=
  "{instance: {base_url: 'https://example.social'}}".

Definition stale_doc : value :=
  VDict {[ "instance" := VDict {[ "base_url" := VStr "https://example.social" ]} ]}.

(** A registered application whose file has no user section. *)
Definition registered_text : string :=
  "{instance: {base_url: 'https://example.social'}, application: {client_id: abc, client_secret: xyz}}".

Definition registered_doc : value :=
  VDict {[ "instance" := VDict {[ "base_url" := VStr "https://example.social" ]};
           "application" := VDict {[ "client_id" := VStr "abc";
                                     "client_secret" := VStr "xyz" ]} ]}.

(** A file with a mapping three levels deep. *)
Definition nested_text : string :=
  "{user: {preferences: {posting: {lang: en}}}, retries: 3}".

Definition nested_map : gmap string value :=
  {[ "user" := VDict {[ "preferences" :=
                          VDict {[ "posting" := VDict {[ "lang" := VStr "en" ]} ]} ]};
     "retries" := VInt 3 ]}.

Definition nested_doc : value := VDict nested_map.

Definition safe_load (s : string) : exn + value :=
  if String.eqb s ready_text then inr ready_doc
  else if String.eqb s first_run_text then inr first_run_doc
  else if String.eqb s stale_text then inr stale_doc
  else if String.eqb s registered_text then inr registered_doc
  else if String.eqb s nested_text then inr nested_doc
  else if String.eqb s "" then inr VNone
  else inl YAMLError.

Definition safe_dump (v : value) : exn + string := inr "{}".

Definition account : value :=
  VAttr {[ "id" := VInt 42; "acct" := VStr "alice" ]}.

Definition post (n : Z) (content : value) : value :=
  VAttr {[ "id" := VInt n; "content" := content ]}.

Definition server (h : list event) (client : gmap string value) (c : call)
  : exn + value :=
  if String.eqb (c_method c) "log_in" then inr (VStr "token")
  else if String.eqb (c_method c) "me" then inr account
  else if String.eqb (c_method c) "account_statuses" then
    inr (VList [post 7 (VStr "seven"); post 5 (VStr "five")])
  else if String.eqb (c_method c) "status_post" then
    inr (post (Z.of_nat (length h)) (default VNone (head (c_args c))))
  else inl (MastodonError "unknown method").

Definition env : Env :=
  {| home := "/home/alice";
     cwd := "/home/alice/work";
     credentials_text := fun _ _ => "token";
     yaml_safe_load := safe_load;
     yaml_safe_dump := safe_dump;
     Mastodon := fun _ _ => inr tt;
     Mastodon_call := server;
     register_application := fun _ _ => inr (VStr "new-id", VStr "new-secret") |}.

(** The same world with a server that rejects the login. *)
Definition env_login_fails : Env :=
  {| home := "/home/alice";
     cwd := "/home/alice/work";
     credentials_text := fun _ _ => "token";
     yaml_safe_load := safe_load;
     yaml_safe_dump := safe_dump;
     Mastodon := fun _ _ => inr tt;
     Mastodon_call := fun h client c =>
       if String.eqb (c_method c) "log_in"
       then inl (MastodonError "invalid credentials")
       else server h client c;
     register_application := fun _ _ => inr (VStr "new-id", VStr "new-secret") |}.

Definition config_dir : path := "/home/alice/.config/my-app-name".
Definition config_file : path := "/home/alice/.config/my-app-name/config.yaml".

Definition disk (text : string) : FileSystem :=
  {| dirs := {[ "/home/alice"; "/home/alice/.config"; config_dir ]};
     files := {[ config_file := text ]} |}.

Definition empty_dir : FileSystem :=
  {| dirs := {[ "/home/alice"; "/home/alice/.config"; config_dir ]};
     files := ∅ |}.

(** An object whose client and account are set, as [connect] sets them. *)
Definition client : gmap string value :=
  {[ "client_id" := VStr "my-application-clientcred.secret";
     "api_base_url" := VStr "https://example.social" ]}.

Definition session : St :=
  {| self := {[ "mastodon" := OClient client; "user" := OValue account ]};
     fs := disk ready_text;
     trace := [] |}.

Definition hello : Message :=
  {| text := VStr "hello"; in_reply_to_id := VNone; visibility := VStr "public" |}.

(** An object about to load the file with the deep mapping. *)
Definition before_load : St :=
  {| self := {[ "config_file" := OPath config_file ]};
     fs := disk nested_text;
     trace := [] |}.

(** An object whose configuration is the ready one, about to connect. *)
Definition before_connect : St :=
  {| self := {[ "config" := OValue
                  (VAttr {[ "instance" := VAttr {[ "base_url" := VStr "https://example.social" ]};
                            "user" := VAttr {[ "username" := VStr "alice";
                                               "password" := VStr "s3cret" ]} ]}) ]};
     fs := disk ready_text;
     trace := [] |}.

End Demo.

(** ** More of the world: other files and another YAML library *)
Module Samples.

(** A document that is a list, one that does not parse, and a registered
    application whose client id is the empty string. *)
Definition list_text : string := "[alice, bob]".

Definition list_doc : value := VList [VStr "alice"; VStr "bob"].

Definition garbled_text : string := "{instance: [unclosed".

Definition blank_id_text : string :=
  "{instance: {base_url: 'https://example.social'}, application: {client_id: ''}}".

Definition blank_id_map : gmap string value :=
  {[ "instance" := VDict {[ "base_url" := VStr "https://example.social" ]};
     "application" := VDict {[ "client_id" := VStr "" ]} ]}.

(** The mapping an object holds in its attribute [data], and its text. *)
Definition saved_map : gmap string value :=
  {[ "instance" := VDict {[ "base_url" := VStr "https://example.social" ]};
     "retries" := VInt 3 ]}.

Definition saved_text : string :=
  "{instance: {base_url: 'https://example.social'}, retries: 3}".

Definition safe_load (s : string) : exn + value :=
  if String.eqb s list_text then inr list_doc
  else if String.eqb s blank_id_text then inr (VDict blank_id_map)
  else if String.eqb s saved_text then inr (VDict saved_map)
  else if String.eqb s "" then inr VNone
  else Demo.safe_load s.

(** A serialiser that knows [saved_map] and, like [yaml.safe_dump], has no
    representer for anything else here. *)
Definition safe_dump (v : value) : exn + string :=
  match v with
  | VDict m =>
      if bool_decide (dom m = dom saved_map)
      then inr saved_text
      else inl YAMLError
  | _ => inl YAMLError
  end.

Definition env : Env :=
  {| home := "/home/alice";
     cwd := "/home/alice/work";
     credentials_text := fun _ _ => "token";
     yaml_safe_load := safe_load;
     yaml_safe_dump := safe_dump;
     Mastodon := fun _ _ => inr tt;
     Mastodon_call := Demo.server;
     register_application := fun _ _ => inr (VStr "new-id", VStr "new-secret") |}.

(** A library whose constructor refuses the instance. *)
Definition env_no_client : Env :=
  {| home := "/home/alice";
     cwd := "/home/alice/work";
     credentials_text := fun _ _ => "token";
     yaml_safe_load := safe_load;
     yaml_safe_dump := safe_dump;
     Mastodon := fun _ _ => inl (MastodonError "no such instance");
     Mastodon_call := Demo.server;
     register_application := fun _ _ => inr (VStr "new-id", VStr "new-secret") |}.


(** The same object with a [data] the serialiser cannot represent. *)
Definition with_bad_data : St :=
  {| self := {[ "config_file" := OPath Demo.config_file;
                "data" := OValue (VAttr saved_map) ]};
     fs := Demo.disk Demo.ready_text;
     trace := [] |}.

(** A new object: no attribute yet. *)
Definition fresh : St :=
  {| self := ∅; fs := Demo.disk Demo.ready_text; trace := [] |}.

End Samples.

(** ** Specification predicates *)

(** [wp env m st Q]: running [m] from [st] ends in a result and a state
    that satisfy [Q]. *)
Definition wp {A} (env : Env) (m : M A) (st : St)
    (Q : exn + A -> St -> Prop) : Prop :=
  Q (m env st).1 (m env st).2.

Definition add_event (ev : event) (st : St) : St :=
  {| self := self st; fs := fs st; trace := trace st ++ [ev] |}.

Definition with_attr (name : string) (o : pyobj) (st : St) : St :=
  {| self := <[name := o]> (self st); fs := fs st; trace := trace st |}.

(** An event that neither writes a file nor registers the application. *)
Definition quiet (ev : event) : Prop :=
  match ev with EWrite _ _ | ERegister _ => False | _ => True end.

Definition is_write (ev : event) : bool :=
  match ev with EWrite _ _ => true | _ => false end.

Definition is_register (ev : event) : bool :=
  match ev with ERegister _ => true | _ => false end.

(** The state after the library has written [text] to [p]. *)
Definition library_wrote (p : path) (text : string) (st : St) : St :=
  {| self := self st;
     fs := {| dirs := dirs (fs st); files := <[p := text]> (files (fs st)) |};
     trace := trace st |}.

(** The file in which [connect] has the library save the credentials, and
    the paths that name such a file in some directory. *)
Definition credentials_file (env : Env) : path :=
  path_join (cwd env) "my-application-usercred.secret".

Definition is_credentials_file (p : path) : Prop :=
  exists d, p = path_join d "my-application-usercred.secret".

(** The last character of a string. *)
Fixpoint last_char (s : string) : option Ascii.ascii :=
  match s with
  | EmptyString => None
  | String c rest =>
      match rest with
      | EmptyString => Some c
      | String _ _ => last_char rest
      end
  end.

(** The disk after the library has saved the credentials of [token]. *)
Definition with_credentials (env : Env) (client : gmap string value)
    (token : value) (disk : FileSystem) : FileSystem :=
  {| dirs := dirs disk;
     files := <[credentials_file env := credentials_text env client token]>
                (files disk) |}.

(** Two file systems with the same directories and, the credentials file
    of the current directory apart, the same files. *)
Definition only_credentials (env : Env) (before after : FileSystem) : Prop :=
  dirs after = dirs before /\
  forall p, p ≠ credentials_file env -> files after !! p = files before !! p.

(** A file system that is [disk] but for the library's credentials file. *)
Definition kept (disk : FileSystem) (now : FileSystem) : Prop :=
  dirs now = dirs disk /\
  forall p, ~ is_credentials_file p -> files now !! p = files disk !! p.

(** The state of a run that has left the disk as it found it, but for what
    the library saved at the login, has only made quiet calls, and has not
    given [self] an attribute [data]. *)
Definition untouched (disk : FileSystem) (st : St) : Prop :=
  kept disk (fs st) /\ Forall quiet (trace st) /\ self st !! "data" = None.

(** A computation that keeps every such state such. *)
Definition harmless {A} (m : M A) : Prop :=
  forall disk env st, untouched disk st -> untouched disk (m env st).2.

(** The outcome of a run that raised and left the disk alone, but for the
    library's credentials file. *)
Definition aborted (disk : FileSystem) {A} (r : exn + A) (st : St) : Prop :=
  (exists e, r = inl e) /\ untouched disk st.

(** What [_load_config] does to one top-level value. *)
Definition load_wrap (v : value) : value :=
  if isinstance_dict v then AttribAccessDict v else v.

(** The mapping a loaded document stands for, when it is one. *)
Definition mapping_of (doc : value) : option (gmap string value) :=
  match doc with
  | VNone => Some ∅
  | VDict m | VAttr m => Some m
  | _ => None
  end.

(** The directory and the file [__init__] settles on. *)
Definition config_dir_of (env : Env) (config_dir : option path) : path :=
  match config_dir with
  | Some d => d
  | None => path_join (path_join (home env) ".config") APPLICATION_NAME
  end.

Definition config_file_of (env : Env) (config_dir : option path) : path :=
  path_join (config_dir_of env config_dir) "config.yaml".

(** [application.client_id] of a document, when both are there. *)
Definition client_id_of (m : gmap string value) : option value :=
  match m !! "application" with
  | Some (VDict a) | Some (VAttr a) => a !! "client_id"
  | _ => None
  end.

(** The state [__init__] has reached when it calls [_load_config]. *)
Definition located (env : Env) (disk : FileSystem) (config_dir : option path)
  : St :=
  with_attr "config_file" (OPath (config_file_of env config_dir))
    (with_attr "config_dir" (OPath (config_dir_of env config_dir))
       {| self := ∅; fs := disk; trace := [] |}).

(** The state in which [_load_config] returns when the file holds the
    mapping [m]. *)
Definition loaded (env : Env) (disk : FileSystem) (config_dir : option path)
    (m : gmap string value) : St :=
  with_attr "config" (OValue (VAttr (load_wrap <$> m)))
    (add_event (ERead (config_file_of env config_dir))
       (located env disk config_dir)).

(** The calls of [log_in] in a trace. *)
Definition login_calls (tr : list event) : list call :=
  omap (fun ev =>
          match ev with
          | ECall _ c => if String.eqb (c_method c) "log_in" then Some c else None
          | _ => None
          end) tr.

(** [user.username] and [user.password] of a configuration. *)
Definition stored_credentials (cfg : value) : option (value * value) :=
  match py_getattr cfg "user" with
  | inr user =>
      match py_getattr user "username", py_getattr user "password" with
      | inr u, inr p => Some (u, p)
      | _, _ => None
      end
  | inl _ => None
  end.

(** The user name and the password a call of [log_in] carries, by keyword
    or by position. *)
Definition call_username (c : call) : option value :=
  match c_kwargs c !! "username" with
  | Some u => Some u
  | None => c_args c !! 0%nat
  end.

Definition call_password (c : call) : option value :=
  match c_kwargs c !! "password" with
  | Some p => Some p
  | None => c_args c !! 1%nat
  end.

Definition passes_stored_credentials (cfg : value) (c : call) : Prop :=
  exists u p, stored_credentials cfg = Some (u, p) /\
    call_username c = Some u /\ call_password c = Some p.

(** The three calls of [connect]. *)
Definition client_kwargs (url : value) : gmap string value :=
  {[ "client_id" := VStr "my-application-clientcred.secret";
     "api_base_url" := url ]}.

Definition login_call : call :=
  Call "log_in" [VStr "<email>"]
    {[ "password" := VStr "<password>";
       "to_file" := VStr "my-application-usercred.secret" ]}.

Definition me_call : call := Call "me" [] ∅.

(** The call of [get_statuses]. *)
Definition statuses_call (uid : value) (limit : Z) : call :=
  Call "account_statuses" [uid]
    {[ "only_media" := VBool false;
       "pinned" := VBool false;
       "exclude_replies" := VBool true;
       "exclude_reblogs" := VBool true;
       "tagged" := VNone;
       "max_id" := VNone;
       "min_id" := VNone;
       "since_id" := VNone;
       "limit" := VInt limit ]}.

(** The call of [post_toot]. *)
Definition post_call (message : Message) : call :=
  Call "status_post" [text message]
    {[ "in_reply_to_id" := in_reply_to_id message;
       "visibility" := visibility message;
       "language" := VStr "en" ]}.

(** The state after [p.open("w").write(text)]. *)
Definition written (p : path) (text : string) (st : St) : St :=
  {| self := self st;
     fs := {| dirs := dirs (fs st); files := <[p := text]> (files (fs st)) |};
     trace := trace st ++ [EWrite p text] |}.

(** A value with every [AttribAccessDict] in it read as a plain [dict]:
    what the value holds, whatever the class of its mappings. *)
Fixpoint erase (v : value) : value :=
  match v with
  | VList l => VList (erase <$> l)
  | VDict m | VAttr m => VDict (erase <$> m)
  | _ => v
  end.

(** The configuration [__init__] holds when it connects: the loaded one,
    with an empty user section when the file has none or an empty one. *)
Definition with_user_section (m : gmap string value) : gmap string value :=
  if truthy (default VNone (load_wrap <$> m !! "user"))
  then load_wrap <$> m
  else <["user" := VAttr ∅]> (load_wrap <$> m).

(** ** Rules for running a method step by step *)

Section Wp.
Context (env : Env).
Context {A B : Type}.
Implicit Types (st : St).

Lemma wp_bind (m : M A) (k : A -> M B) st (Q : exn + B -> St -> Prop) :
  wp env m st (fun r st' =>
    match r with
    | inl e => Q (inl e) st'
    | inr a => wp env (k a) st' Q
    end) ->
  wp env (m ≫= k) st Q.
Proof.
  unfold wp, mbind, M_bind.
  destruct (m env st) as [[e|a] st']; simpl; auto.
Qed.

Lemma wp_ret (a : A) st (Q : exn + A -> St -> Prop) :
  Q (inr a) st -> wp env (mret a) st Q.
Proof. done. Qed.

Lemma wp_raise e st (Q : exn + A -> St -> Prop) :
  Q (inl e) st -> wp env (raise e) st Q.
Proof. done. Qed.

Lemma wp_lift (r : exn + A) st (Q : exn + A -> St -> Prop) :
  Q r st -> wp env (lift r) st Q.
Proof. done. Qed.

Lemma wp_eq (m : M A) st r st' (Q : exn + A -> St -> Prop) :
  m env st = (r, st') -> Q r st' -> wp env m st Q.
Proof. unfold wp. by intros ->. Qed.

Lemma wp_harmless (m : M A) disk st (Q : exn + A -> St -> Prop) :
  harmless m -> untouched disk st ->
  (forall r st', untouched disk st' -> Q r st') ->
  wp env m st Q.
Proof. intros Hm Hst HQ. apply HQ, Hm, Hst. Qed.
End Wp.

Section Wp_primitives.
Context (env : Env).
Implicit Types (st : St).

Lemma wp_ask st (Q : exn + Env -> St -> Prop) :
  Q (inr env) st -> wp env ask st Q.
Proof. done. Qed.

Lemma wp_history st (Q : exn + list event -> St -> Prop) :
  Q (inr (trace st)) st -> wp env history st Q.
Proof. done. Qed.

Lemma wp_emit ev st (Q : exn + unit -> St -> Prop) :
  Q (inr tt) (add_event ev st) -> wp env (emit ev) st Q.
Proof. done. Qed.

Lemma wp_get_attr name st (Q : exn + pyobj -> St -> Prop) :
  match self st !! name with
  | Some o => Q (inr o) st
  | None => Q (inl (AttributeError name)) st
  end ->
  wp env (get_attr name) st Q.
Proof. unfold wp, get_attr. by destruct (self st !! name). Qed.

Lemma wp_set_attr name o st (Q : exn + unit -> St -> Prop) :
  Q (inr tt) (with_attr name o st) -> wp env (set_attr name o) st Q.
Proof. done. Qed.

Lemma wp_when (b : bool) body st (Q : exn + unit -> St -> Prop) :
  (if b then wp env body st Q else Q (inr tt) st) ->
  wp env (when b body) st Q.
Proof. by destruct b. Qed.

Lemma wp_is_dir p st (Q : exn + bool -> St -> Prop) :
  Q (inr (bool_decide (p ∈ dirs (fs st)))) st -> wp env (is_dir p) st Q.
Proof. done. Qed.

Lemma wp_is_file p st (Q : exn + bool -> St -> Prop) :
  Q (inr (match files (fs st) !! p with Some _ => true | None => false end)) st ->
  wp env (is_file p) st Q.
Proof. done. Qed.

Lemma wp_read_file p st (Q : exn + string -> St -> Prop) :
  match files (fs st) !! p with
  | Some text => Q (inr text) (add_event (ERead p) st)
  | None => Q (inl (FileNotFoundError p)) st
  end ->
  wp env (read_file p) st Q.
Proof. unfold wp, read_file. by destruct (files (fs st) !! p). Qed.

Lemma wp_write_file p text st (Q : exn + unit -> St -> Prop) :
  Q (inr tt)
    {| self := self st;
       fs := {| dirs := dirs (fs st); files := <[p := text]> (files (fs st)) |};
       trace := trace st ++ [EWrite p text] |} ->
  wp env (write_file p text) st Q.
Proof. done. Qed.

Lemma wp_library_write p text st (Q : exn + unit -> St -> Prop) :
  Q (inr tt) (library_wrote p text st) -> wp env (library_write p text) st Q.
Proof. done. Qed.

Lemma wp_as_value o st (Q : exn + value -> St -> Prop) :
  match o with OValue v => Q (inr v) st | _ => Q (inl TypeError) st end ->
  wp env (as_value o) st Q.
Proof. by destruct o. Qed.

Lemma wp_as_path o st (Q : exn + path -> St -> Prop) :
  match o with OPath p => Q (inr p) st | _ => Q (inl TypeError) st end ->
  wp env (as_path o) st Q.
Proof. by destruct o. Qed.

Lemma wp_as_client o st (Q : exn + gmap string value -> St -> Prop) :
  match o with
  | OClient k => Q (inr k) st
  | _ => Q (inl (AttributeError "method")) st
  end ->
  wp env (as_client o) st Q.
Proof. by destruct o. Qed.
End Wp_primitives.

(** One step of the run: the rule of the computation at the head. *)
Ltac wp_head :=
  lazymatch goal with
  | |- wp _ (mbind _ _) _ _ => apply wp_bind
  | |- wp _ (mret _) _ _ => apply wp_ret
  | |- wp _ (raise _) _ _ => apply wp_raise
  | |- wp _ (lift _) _ _ => apply wp_lift
  | |- wp _ ask _ _ => apply wp_ask
  | |- wp _ history _ _ => apply wp_history
  | |- wp _ (emit _) _ _ => apply wp_emit
  | |- wp _ (get_attr _) _ _ => apply wp_get_attr
  | |- wp _ (set_attr _ _) _ _ => apply wp_set_attr
  | |- wp _ (when _ _) _ _ => apply wp_when
  | |- wp _ (is_dir _) _ _ => apply wp_is_dir
  | |- wp _ (is_file _) _ _ => apply wp_is_file
  | |- wp _ (read_file _) _ _ => apply wp_read_file
  | |- wp _ (write_file _ _) _ _ => apply wp_write_file
  | |- wp _ (library_write _ _) _ _ => apply wp_library_write
  | |- wp _ (as_value _) _ _ => apply wp_as_value
  | |- wp _ (as_path _) _ _ => apply wp_as_path
  | |- wp _ (as_client _) _ _ => apply wp_as_client
  | |- wp _ get_config _ _ => unfold get_config
  | |- wp _ (setitem_config _ _) _ _ => unfold setitem_config
  | |- wp _ (client_call _ _) _ _ => unfold client_call
  | |- wp _ (log_in _ _ _ _) _ _ => unfold log_in
  end.

Ltac wp_simpl :=
  cbn beta iota delta [with_attr add_event library_wrote self fs trace negb
                       truthy is_none];
  repeat first
    [ rewrite lookup_insert_eq
    | rewrite lookup_insert_ne by done
    | rewrite lookup_empty
    | match goal with
      | H : ?m !! ?k = _ |- context [?m !! ?k] => rewrite H
      end ];
  cbn beta iota.

Ltac wp_run := repeat (wp_head; wp_simpl).

(** A case split on what the run is waiting for. *)
Ltac wp_case :=
  lazymatch goal with
  | |- if ?b then _ else _ => destruct b eqn:?
  | |- match ?x with _ => _ end => destruct x eqn:?
  end; wp_simpl.

(** ** Facts about the Python values *)

Lemma load_loop_lookup (m : gmap string value) (k : string) :
  load_loop m !! k = load_wrap <$> (m !! k).
Proof.
  unfold load_loop.
  set (f := fun (k : string) (v : value) (acc : gmap string value) =>
              if isinstance_dict v then <[k := AttribAccessDict v]> acc else acc).
  assert (H : forall m0 : gmap string value,
    map_fold f m0 m !! k
    = match m !! k with
      | Some v => if isinstance_dict v then Some (AttribAccessDict v) else m0 !! k
      | None => m0 !! k
      end).
  { intros m0.
    apply (map_fold_weak_ind (fun r (m' : gmap string value) =>
      r !! k = match m' !! k with
               | Some v => if isinstance_dict v then Some (AttribAccessDict v) else m0 !! k
               | None => m0 !! k
               end)).
    - by rewrite lookup_empty.
    - intros i x m' r Hi IH. unfold f.
      destruct (decide (i = k)) as [->|Hne].
      + rewrite lookup_insert_eq.
        destruct (isinstance_dict x); [by rewrite lookup_insert_eq|].
        by rewrite IH, Hi.
      + rewrite lookup_insert_ne by done.
        destruct (isinstance_dict x); [by rewrite lookup_insert_ne|done]. }
  rewrite H. unfold load_wrap. destruct (m !! k) as [v|]; simpl; [|done].
  by destruct (isinstance_dict v).
Qed.

Lemma load_loop_fmap (m : gmap string value) : load_loop m = load_wrap <$> m.
Proof. apply map_eq. intros k. by rewrite load_loop_lookup, lookup_fmap. Qed.

(** An attribute that can be read is an entry of an [AttribAccessDict]. *)
Lemma py_getattr_inv (v x : value) (name : string) :
  py_getattr v name = inr x -> exists m, v = VAttr m /\ m !! name = Some x.
Proof.
  destruct v; simpl; try discriminate.
  destruct (m !! name) eqn:E; [|discriminate].
  intros [= ->]. eauto.
Qed.

Lemma py_getattr_get (v x dflt : value) (name : string) :
  py_getattr v name = inr x -> py_get v name dflt = inr x.
Proof. intros (m & -> & H)%py_getattr_inv. simpl. by rewrite H. Qed.

Lemma py_getattr_not_none (v x : value) (name : string) :
  py_getattr v name = inr x -> is_none v = false.
Proof. by intros (m & -> & H)%py_getattr_inv. Qed.

(** ** Computations that leave the disk alone *)

Section Harmless.
Context {A B : Type}.

Lemma harmless_bind (m : M A) (k : A -> M B) :
  harmless m -> (forall a, harmless (k a)) -> harmless (m ≫= k).
Proof.
  intros Hm Hk disk env st Hst. specialize (Hm disk env st Hst).
  unfold mbind, M_bind. destruct (m env st) as [[e|a] st']; simpl in *; [done|].
  by apply Hk.
Qed.

Lemma harmless_ret (a : A) : harmless (mret a : M A).
Proof. by intros disk env st. Qed.

Lemma harmless_raise e : harmless (raise e : M A).
Proof. by intros disk env st. Qed.

Lemma harmless_lift (r : exn + A) : harmless (lift r).
Proof. by intros disk env st. Qed.
End Harmless.

Lemma harmless_ask : harmless ask.
Proof. by intros disk env st. Qed.

Lemma harmless_history : harmless history.
Proof. by intros disk env st. Qed.

Lemma kept_refl disk : kept disk disk.
Proof. by split. Qed.

Lemma harmless_emit ev : quiet ev -> harmless (emit ev).
Proof.
  intros Hev disk env st (Hfs & Htr & Hd).
  split; [exact Hfs|]. split; [|exact Hd]. simpl.
  apply Forall_app; split; [done|]. by constructor.
Qed.

Lemma harmless_get_attr name : harmless (get_attr name).
Proof. intros disk env st H. unfold get_attr. by destruct (self st !! name). Qed.

Lemma harmless_set_attr name o : name ≠ "data" -> harmless (set_attr name o).
Proof.
  intros Hne disk env st (Hfs & Htr & Hd).
  split; [exact Hfs|]. split; [exact Htr|]. simpl.
  by rewrite lookup_insert_ne.
Qed.

Lemma harmless_when b body : harmless body -> harmless (when b body).
Proof. destruct b; [done|]. intros _. apply harmless_ret. Qed.

Lemma harmless_is_dir p : harmless (is_dir p).
Proof. by intros disk env st. Qed.

Lemma harmless_is_file p : harmless (is_file p).
Proof. by intros disk env st. Qed.

Lemma harmless_read_file p : harmless (read_file p).
Proof.
  intros disk env st (Hfs & Htr & Hd). unfold read_file.
  destruct (files (fs st) !! p); [|done].
  split; [exact Hfs|]. split; [|exact Hd]. simpl.
  apply Forall_app; split; [done|]. by constructor.
Qed.

(** The library's own write is harmless when it is to a credentials file. *)
Lemma harmless_library_write p text :
  is_credentials_file p -> harmless (library_write p text).
Proof.
  intros Hp disk env st ((Hdirs & Hfiles) & Htr & Hd).
  split; [|by split]. split; [exact Hdirs|]. simpl.
  intros q Hq. rewrite lookup_insert_ne; [by apply Hfiles|].
  by intros ->.
Qed.

Lemma harmless_as_value o : harmless (as_value o).
Proof. destruct o; first [apply harmless_ret | apply harmless_raise]. Qed.

Lemma harmless_as_path o : harmless (as_path o).
Proof. destruct o; first [apply harmless_ret | apply harmless_raise]. Qed.

Lemma harmless_as_client o : harmless (as_client o).
Proof. destruct o; first [apply harmless_ret | apply harmless_raise]. Qed.

Create HintDb harmless.

#[local] Hint Resolve harmless_ret harmless_raise harmless_lift harmless_ask
  harmless_history harmless_get_attr harmless_is_dir harmless_is_file
  harmless_read_file harmless_as_value harmless_as_path harmless_as_client
  harmless_when : harmless.
#[local] Hint Extern 1 (harmless (mbind _ _)) =>
  apply harmless_bind; [|intros ?] : harmless.
#[local] Hint Extern 1 (harmless (set_attr _ _)) =>
  apply harmless_set_attr; discriminate : harmless.
#[local] Hint Extern 1 (harmless (emit _)) =>
  apply harmless_emit; exact I : harmless.
#[local] Hint Extern 1 (harmless (match ?x with _ => _ end)) =>
  destruct x : harmless.

Ltac harmless_tac := auto 40 with harmless.

Lemma harmless_get_config : harmless get_config.
Proof. unfold get_config. harmless_tac. Qed.

Lemma harmless_setitem_config key x : harmless (setitem_config key x).
Proof. unfold setitem_config, get_config. harmless_tac. Qed.

Lemma harmless_client_call client c : harmless (client_call client c).
Proof. unfold client_call. harmless_tac. Qed.

Lemma harmless_log_in client username password :
  harmless (log_in client username password "my-application-usercred.secret").
Proof.
  unfold log_in. apply harmless_bind; [apply harmless_client_call|].
  intros token. apply harmless_bind; [apply harmless_ask|].
  intros env. apply harmless_bind; [|intros; apply harmless_ret].
  apply harmless_library_write. by eexists.
Qed.

#[local] Hint Resolve harmless_get_config harmless_setitem_config
  harmless_client_call harmless_log_in : harmless.

Lemma harmless__load_config : harmless _load_config.
Proof. unfold _load_config. harmless_tac. Qed.

Lemma harmless_connect : harmless connect.
Proof. unfold connect. harmless_tac. Qed.

(** [_save_config] reads [self.data] first: without that attribute it
    raises and nothing else happens. *)
Lemma _save_config_no_data env st :
  self st !! "data" = None ->
  _save_config env st = (inl (AttributeError "data"), st).
Proof.
  intros H. unfold _save_config, mbind, M_bind, get_attr. by rewrite H.
Qed.

#[local] Hint Resolve harmless__load_config harmless_connect : harmless.

Lemma untouched_aborted disk {A} e st :
  untouched disk st -> aborted disk (inl e : exn + A) st.
Proof. intros H. split; eauto. Qed.

(** Skipping a harmless step whose answer does not matter. *)
Ltac wp_skip :=
  apply wp_bind;
  eapply wp_harmless; [harmless_tac | eassumption |];
  let r := fresh "r" in let st' := fresh "st" in let H := fresh "Hst" in
  intros r st' H; destruct r as [?|?]; [by apply untouched_aborted|].

Lemma init_always_aborts env disk config_dir base_url :
  let r := MastodonClientApp env disk config_dir base_url in
  aborted disk r.1 r.2.
Proof.
  change (wp env (__init__ config_dir base_url)
            {| self := ∅; fs := disk; trace := [] |} (aborted disk)).
  assert (H0 : untouched disk {| self := ∅; fs := disk; trace := [] |}).
  { split; [apply kept_refl|]. split; [constructor|apply lookup_empty]. }
  unfold __init__.
  do 11 wp_skip.
  (* line 41: the state stays [st9] while the configuration is examined *)
  wp_run. wp_case; [|by apply untouched_aborted].
  wp_run. wp_case; try by apply untouched_aborted.
  wp_run. wp_case; [by apply untouched_aborted|].
  wp_run. wp_case; [by apply untouched_aborted|].
  wp_run. wp_case; [wp_run; by apply untouched_aborted|].
  wp_run. wp_case; [by apply untouched_aborted|].
  wp_run. wp_case; [by apply untouched_aborted|].
  wp_run. wp_case.
  - (* first run: the assertion of line 46 cannot hold after line 41 *)
    wp_run.
    match goal with
    | H : py_getattr _ "instance" = inr _ |- _ =>
        rewrite (py_getattr_get _ _ VNone _ H)
    end.
    wp_run.
    match goal with
    | H : py_getattr _ "base_url" = inr _ |- _ =>
        rewrite (py_getattr_not_none _ _ _ H)
    end.
    simpl.
    wp_run. by apply untouched_aborted.
  - (* registered: the run goes on to [_save_config] *)
    do 4 wp_skip.
    unfold wp.
    match goal with
    | H : untouched disk ?st |- context [_save_config env ?st] =>
        rewrite _save_config_no_data by apply H
    end.
    by apply untouched_aborted.
Qed.

(** ** [_load_config] *)

Lemma _load_config_run env st f text doc m :
  self st !! "config_file" = Some (OPath f) ->
  files (fs st) !! f = Some text ->
  yaml_safe_load env text = inr doc ->
  mapping_of doc = Some m ->
  _load_config env st
  = (inr tt,
     with_attr "config" (OValue (VAttr (load_wrap <$> m)))
       (add_event (ERead f) st)).
Proof.
  intros Hf Htext Hdoc Hm.
  unfold _load_config, mbind, M_bind, get_attr, read_file, ask, lift.
  rewrite Hf. simpl. rewrite Htext, Hdoc. simpl.
  destruct doc; simpl in Hm; try discriminate; injection Hm as <-; simpl.
  - unfold load_loop. by rewrite map_fold_empty, fmap_empty.
  - by rewrite load_loop_fmap.
  - by rewrite load_loop_fmap.
Qed.

(** The run of [__init__] up to the return of [_load_config]. *)
Ltac init_to_loaded Hdir Hfile Hload Hmap :=
  let Hfile' := fresh in
  pose proof Hfile as Hfile';
  unfold config_file_of, config_dir_of in Hfile';
  unfold __init__; wp_run;
  rewrite bool_decide_eq_true_2 by exact Hdir; wp_simpl;
  wp_run;
  eapply wp_eq;
    [ eapply _load_config_run;
      [ cbn [self with_attr add_event];
        rewrite lookup_insert_eq; reflexivity
      | exact Hfile | exact Hload | exact Hmap ]
    | ];
  wp_simpl.

Lemma loaded_getattr (m : gmap string value) k v :
  m !! k = Some v -> py_getattr (VAttr (load_wrap <$> m)) k = inr (load_wrap v).
Proof. intros H. simpl. by rewrite lookup_fmap, H. Qed.

Lemma loaded_getattr_none (m : gmap string value) k :
  m !! k = None ->
  py_getattr (VAttr (load_wrap <$> m)) k = inl (AttributeError k).
Proof. intros H. simpl. by rewrite lookup_fmap, H. Qed.

Lemma client_id_absent (m : gmap string value) :
  client_id_of m = None ->
  exists app,
    py_get (VAttr (load_wrap <$> m)) "application" (VDict ∅) = inr app /\
    (py_get app "client_id" VNone = inr VNone \/
     exists e, py_get app "client_id" VNone = inl e).
Proof.
  unfold client_id_of. intros H. simpl. rewrite lookup_fmap.
  destruct (m !! "application") as [app|]; simpl.
  - exists (load_wrap app). split; [done|].
    destruct app; simpl; eauto; rewrite H; eauto.
  - exists (VDict ∅). split; [done|]. left. simpl. by rewrite lookup_empty.
Qed.

(** ** Initialization: a first run with an instance section *)

(** C7.  When the loaded configuration has an [instance] section and no
    [application.client_id], [__init__] raises before it calls any
    collaborator: the only thing it has done is read the file.  The
    registration is not called, the disk is as it was, and the
    configuration in memory is the loaded one, not a repaired one. *)
Theorem stale_instance_fails_fast env disk config_dir base_url text doc m :
  config_dir_of env config_dir ∈ dirs disk ->
  files disk !! config_file_of env config_dir = Some text ->
  yaml_safe_load env text = inr doc ->
  mapping_of doc = Some m ->
  is_Some (m !! "instance") ->
  client_id_of m = None ->
  let r := MastodonClientApp env disk config_dir base_url in
  (exists e, r.1 = inl e) /\
  trace r.2 = [ERead (config_file_of env config_dir)] /\
  fs r.2 = disk /\
  self r.2 !! "config" = Some (OValue (VAttr (load_wrap <$> m))).
Proof.
  intros Hdir Hfile Hload Hmap [inst Hinst] Hcid.
  change (wp env (__init__ config_dir base_url)
            {| self := ∅; fs := disk; trace := [] |}
            (fun r st => (exists e, r = inl e) /\
               trace st = [ERead (config_file_of env config_dir)] /\
               fs st = disk /\
               self st !! "config" = Some (OValue (VAttr (load_wrap <$> m))))).
  assert (Hleaf : forall e,
    (exists e0, (inl e : exn + unit) = inl e0) /\
    trace (loaded env disk config_dir m) = [ERead (config_file_of env config_dir)] /\
    fs (loaded env disk config_dir m) = disk /\
    self (loaded env disk config_dir m) !! "config"
    = Some (OValue (VAttr (load_wrap <$> m)))).
  { intros e. split; [by eexists|]. split; [done|]. split; [done|].
    apply lookup_insert_eq. }
  init_to_loaded Hdir Hfile Hload Hmap.
  wp_run. rewrite (loaded_getattr _ _ _ Hinst).
  wp_run. destruct (py_getattr (load_wrap inst) "base_url") as [e|url] eqn:Hurl;
    [apply Hleaf|].
  wp_run. wp_case; [wp_run; apply Hleaf|].
  wp_run.
  destruct (client_id_absent m Hcid) as (app & -> & [Hnone|[e Herr]]).
  - wp_run. rewrite Hnone. wp_run.
    rewrite (py_getattr_get _ _ VNone _ (loaded_getattr _ _ _ Hinst)).
    wp_run. rewrite (py_getattr_not_none _ _ _ Hurl). wp_simpl.
    wp_run. apply Hleaf.
  - wp_run. rewrite Herr. apply Hleaf.
Qed.

Lemma demo_dir_exists text :
  config_dir_of Demo.env None ∈ dirs (Demo.disk text).
Proof.
  apply (bool_decide_unpack (config_dir_of Demo.env None ∈ dirs (Demo.disk text))).
  by vm_compute.
Qed.

Lemma stale_instance_fails_fast_witness :
  let r := MastodonClientApp Demo.env (Demo.disk Demo.stale_text) None None in
  (exists e, r.1 = inl e) /\
  trace r.2 = [ERead (config_file_of Demo.env None)] /\
  fs r.2 = Demo.disk Demo.stale_text /\
  self r.2 !! "config"
  = Some (OValue (VAttr (load_wrap <$>
      {[ "instance" := VDict {[ "base_url" := VStr "https://example.social" ]} ]}))).
Proof.
  apply (stale_instance_fails_fast Demo.env (Demo.disk Demo.stale_text) None None
           Demo.stale_text Demo.stale_doc
           {[ "instance" := VDict {[ "base_url" := VStr "https://example.social" ]} ]}).
  - apply demo_dir_exists.
  - reflexivity.
  - reflexivity.
  - reflexivity.
  - by eexists.
  - reflexivity.
Defined.

(** ** Initialization: the directory and the file *)

(** C6.  When the configuration directory does not exist, or the file
    [config.yaml] does not exist in it, [__init__] raises [ValueError] (the
    spec's ConfigurationError) before anything else happens: nothing has
    been read, no collaborator has been called, and the disk is as it was,
    so no file has been created or written. *)
Theorem missing_directory_or_file_rejected env disk config_dir base_url :
  config_dir_of env config_dir ∉ dirs disk \/
  files disk !! config_file_of env config_dir = None ->
  let r := MastodonClientApp env disk config_dir base_url in
  (exists e, r.1 = inl e /\ ConfigurationError e) /\
  trace r.2 = [] /\
  fs r.2 = disk.
Proof.
  intros H.
  change (wp env (__init__ config_dir base_url)
            {| self := ∅; fs := disk; trace := [] |}
            (fun r st => (exists e, r = inl e /\ ConfigurationError e) /\
               trace st = [] /\ fs st = disk)).
  unfold config_file_of, config_dir_of in H.
  unfold __init__. wp_run.
  destruct (bool_decide _) eqn:Hdir; wp_simpl.
  - wp_run. destruct H as [H|H].
    + by apply bool_decide_eq_true_1 in Hdir.
    + rewrite H. wp_simpl. wp_run.
      split; [eexists; split; [reflexivity|exact I]|done].
  - wp_run. split; [eexists; split; [reflexivity|exact I]|done].
Qed.

Lemma missing_directory_or_file_rejected_witness :
  let r := MastodonClientApp Demo.env Demo.empty_dir None None in
  (exists e, r.1 = inl e /\ ConfigurationError e) /\
  trace r.2 = [] /\
  fs r.2 = Demo.empty_dir.
Proof.
  apply missing_directory_or_file_rejected. right. reflexivity.
Defined.

(** ** Initialization: the instance URL *)

(** X3.  A configuration that sets [instance.base_url] and a base URL
    argument that is not empty are refused together: [__init__] raises
    [ValueError] naming the stored URL right after it has read the file,
    before any collaborator is called. *)
Lemma duplicate_base_url_rejected env disk config_dir url text doc m inst stored :
  config_dir_of env config_dir ∈ dirs disk ->
  files disk !! config_file_of env config_dir = Some text ->
  yaml_safe_load env text = inr doc ->
  mapping_of doc = Some m ->
  m !! "instance" = Some inst ->
  py_getattr (load_wrap inst) "base_url" = inr stored ->
  truthy stored = true ->
  url ≠ "" ->
  let r := MastodonClientApp env disk config_dir (Some url) in
  r.1 = inl (ValueError (AlreadyHaveBaseUrl stored)) /\
  trace r.2 = [ERead (config_file_of env config_dir)] /\
  fs r.2 = disk.
Proof.
  intros Hdir Hfile Hload Hmap Hinst Hurl Hstored Hne.
  change (wp env (__init__ config_dir (Some url))
            {| self := ∅; fs := disk; trace := [] |}
            (fun r st => r = inl (ValueError (AlreadyHaveBaseUrl stored)) /\
               trace st = [ERead (config_file_of env config_dir)] /\
               fs st = disk)).
  init_to_loaded Hdir Hfile Hload Hmap.
  wp_run. rewrite (loaded_getattr _ _ _ Hinst).
  wp_run. rewrite Hurl.
  wp_run. rewrite Hstored. simpl.
  destruct (String.eqb url "") eqn:E; [by apply String.eqb_eq in E|].
  simpl. wp_run. done.
Qed.

(** X4.  A configuration without an [instance] section (an empty file is
    one) stops [__init__] at the check of line 41 with [AttributeError],
    whatever the base URL argument is. *)
Lemma no_instance_section_raises env disk config_dir base_url text doc m :
  config_dir_of env config_dir ∈ dirs disk ->
  files disk !! config_file_of env config_dir = Some text ->
  yaml_safe_load env text = inr doc ->
  mapping_of doc = Some m ->
  m !! "instance" = None ->
  let r := MastodonClientApp env disk config_dir base_url in
  r.1 = inl (AttributeError "instance") /\
  trace r.2 = [ERead (config_file_of env config_dir)] /\
  fs r.2 = disk.
Proof.
  intros Hdir Hfile Hload Hmap Hinst.
  change (wp env (__init__ config_dir base_url)
            {| self := ∅; fs := disk; trace := [] |}
            (fun r st => r = inl (AttributeError "instance") /\
               trace st = [ERead (config_file_of env config_dir)] /\
               fs st = disk)).
  init_to_loaded Hdir Hfile Hload Hmap.
  wp_run. rewrite (loaded_getattr_none _ _ Hinst). done.
Qed.

(** ** Loading *)

(** C10.  [_load_config] turns the top-level values that are mappings into
    [AttribAccessDict]s of the same content and keeps every other top-level
    value: a mapping inside a section is still a plain [dict].  So an
    attribute (a key that is not a name of the [dict] class) can be read on
    the configuration and on a section, and on nothing deeper. *)
Theorem load_wraps_top_level_only env st f text doc m :
  self st !! "config_file" = Some (OPath f) ->
  files (fs st) !! f = Some text ->
  yaml_safe_load env text = inr doc ->
  mapping_of doc = Some m ->
  let r := _load_config env st in
  exists cfg,
    r.1 = inr tt /\
    self r.2 !! "config" = Some (OValue (VAttr cfg)) /\
    (forall k, cfg !! k = load_wrap <$> m !! k) /\
    (forall k section, m !! k = Some (VDict section) ->
       cfg !! k = Some (VAttr section)) /\
    (forall k v, m !! k = Some v -> isinstance_dict v = false ->
       cfg !! k = Some v) /\
    (forall k section k2 deep k3,
       dict_attribute k = false ->
       dict_attribute k2 = false ->
       dict_attribute k3 = false ->
       m !! k = Some (VDict section) ->
       section !! k2 = Some (VDict deep) ->
       exists sub,
         py_getattr (VAttr cfg) k = inr (VAttr section) /\
         py_getattr (VAttr section) k2 = inr sub /\
         sub = VDict deep /\
         py_getattr sub k3 = inl (AttributeError k3)).
Proof.
  intros Hf Htext Hdoc Hm r. subst r.
  rewrite (_load_config_run env st f text doc m Hf Htext Hdoc Hm).
  exists (load_wrap <$> m). simpl. split; [done|].
  split; [by rewrite lookup_insert_eq|].
  split; [intros k; by rewrite lookup_fmap|].
  split; [intros k section Hk; by rewrite lookup_fmap, Hk|].
  split.
  - intros k v Hk Hv. rewrite lookup_fmap, Hk. simpl.
    unfold load_wrap. by rewrite Hv.
  - intros k section k2 deep k3 _ _ _ Hk Hk2. exists (VDict deep).
    rewrite lookup_fmap, Hk, Hk2. done.
Qed.

Lemma load_wraps_top_level_only_witness :
  let r := _load_config Demo.env Demo.before_load in
  exists cfg,
    r.1 = inr tt /\
    self r.2 !! "config" = Some (OValue (VAttr cfg)) /\
    (forall k, cfg !! k = load_wrap <$> Demo.nested_map !! k) /\
    (forall k section, Demo.nested_map !! k = Some (VDict section) ->
       cfg !! k = Some (VAttr section)) /\
    (forall k v, Demo.nested_map !! k = Some v -> isinstance_dict v = false ->
       cfg !! k = Some v) /\
    (forall k section k2 deep k3,
       dict_attribute k = false ->
       dict_attribute k2 = false ->
       dict_attribute k3 = false ->
       Demo.nested_map !! k = Some (VDict section) ->
       section !! k2 = Some (VDict deep) ->
       exists sub,
         py_getattr (VAttr cfg) k = inr (VAttr section) /\
         py_getattr (VAttr section) k2 = inr sub /\
         sub = VDict deep /\
         py_getattr sub k3 = inl (AttributeError k3)).
Proof.
  apply (load_wraps_top_level_only Demo.env Demo.before_load Demo.config_file
           Demo.nested_text Demo.nested_doc Demo.nested_map);
    reflexivity.
Defined.

(** ** Connecting *)

Lemma connect_run env st cfg inst url :
  self st !! "config" = Some (OValue cfg) ->
  py_getattr cfg "instance" = inr inst ->
  py_getattr inst "base_url" = inr url ->
  let client := client_kwargs url in
  let st1 := add_event (ENew client) st in
  let st2 := add_event (ECall client login_call)
               (with_attr "mastodon" (OClient client) st1) in
  connect env st =
    match Mastodon env (trace st) client with
    | inl e => (inl e, st1)
    | inr _ =>
        match Mastodon_call env (trace st1) client login_call with
        | inl e => (inl e, st2)
        | inr token =>
            let st3 := add_event (ECall client me_call)
                         (library_wrote (credentials_file env)
                            (credentials_text env client token) st2) in
            match Mastodon_call env (trace st2) client me_call with
            | inl e => (inl e, st3)
            | inr u => (inr tt, with_attr "user" (OValue u) st3)
            end
        end
    end.
Proof.
  intros Hcfg Hinst Hurl client st1 st2.
  unfold connect, get_config, log_in, client_call, library_write, mbind,
    M_bind, get_attr, lift, history, ask, emit, set_attr.
  rewrite Hcfg. simpl. rewrite Hinst, Hurl.
  fold (client_kwargs url). fold client. fold login_call. fold me_call.
  destruct (Mastodon env (trace st) client) as [e|[]]; [done|].
  simpl. rewrite lookup_insert_eq. simpl.
  destruct (Mastodon_call env _ client login_call) as [e|token]; [done|].
  simpl. rewrite lookup_insert_eq. simpl.
  by destruct (Mastodon_call env _ client me_call).
Qed.

(** The configuration file is not a credentials file: the two names end
    differently. *)
Lemma last_char_app s t : t ≠ "" -> last_char (s ++ t) = last_char t.
Proof.
  intros Ht. induction s as [|c s IH]; [done|].
  change (String c s ++ t) with (String c (s ++ t)).
  destruct (s ++ t) as [|c' rest] eqn:E.
  - destruct s; simpl in E; [done|discriminate E].
  - exact IH.
Qed.

Lemma config_file_not_credentials d : ~ is_credentials_file (path_join d "config.yaml").
Proof.
  intros [d' H]. apply (f_equal last_char) in H. unfold path_join in H.
  rewrite !last_char_app in H by done. discriminate H.
Qed.

Lemma config_file_is_not_credentials_file env config_dir :
  config_file_of env config_dir ≠ credentials_file env.
Proof.
  intros H. apply (config_file_not_credentials (config_dir_of env config_dir)).
  exists (cwd env). exact H.
Qed.

Lemma login_calls_app tr1 tr2 :
  login_calls (tr1 ++ tr2) = (login_calls tr1 ++ login_calls tr2)%list.
Proof. apply omap_app. Qed.

(** C4 (amended).  [connect] builds the client for [instance.base_url] and
    logs in with the literals ["<email>"] and ["<password>"] written in the
    method, whatever the configuration's user section holds; when the login
    and the call of [me] succeed, [connect] returns and the account [me]
    returned is stored in [self.user], and when the login raises,
    [connect] raises the same and [self.user] is not set. *)
Theorem connect_logs_in_with_fixed_credentials env st cfg inst url :
  self st !! "config" = Some (OValue cfg) ->
  py_getattr cfg "instance" = inr inst ->
  py_getattr inst "base_url" = inr url ->
  Mastodon env (trace st) (client_kwargs url) = inr tt ->
  let client := client_kwargs url in
  let asked := (trace st ++ [ENew client; ECall client login_call])%list in
  let r := connect env st in
  (exists rest, trace r.2 = (asked ++ rest)%list) /\
  login_calls (trace r.2) = (login_calls (trace st) ++ [login_call])%list /\
  (r.1 = inr tt ->
     exists u, Mastodon_call env asked client me_call = inr u /\
               self r.2 !! "user" = Some (OValue u)) /\
  (forall token u,
     Mastodon_call env (trace st ++ [ENew client])%list client login_call
     = inr token ->
     Mastodon_call env asked client me_call = inr u ->
     r.1 = inr tt /\
     self r.2 !! "user" = Some (OValue u) /\
     self r.2 !! "mastodon" = Some (OClient client) /\
     trace r.2 = (asked ++ [ECall client me_call])%list) /\
  (forall e, Mastodon_call env (trace st ++ [ENew client])%list client login_call = inl e ->
     r.1 = inl e /\ self r.2 !! "user" = self st !! "user").
Proof.
  intros Hcfg Hinst Hurl Hnew client asked r. subst r asked.
  pose proof (connect_run env st cfg inst url Hcfg Hinst Hurl) as Hrun.
  cbv zeta in Hrun. rewrite Hrun, Hnew. clear Hrun. fold client. simpl.
  assert (Hasked : ((trace st ++ [ENew client]) ++ [ECall client login_call])%list
                   = (trace st ++ [ENew client; ECall client login_call])%list)
    by (by rewrite <- app_assoc).
  rewrite Hasked.
  destruct (Mastodon_call env (trace st ++ [ENew client])%list client login_call)
    as [e|tok] eqn:Hlogin; simpl.
  - rewrite Hasked.
    split; [exists []; by rewrite app_nil_r|].
    split; [rewrite !login_calls_app; simpl; by rewrite ?app_nil_r|].
    split; [done|]. split; [intros token u [=]|].
    intros e' [= <-]. split; [done|]. by rewrite lookup_insert_ne.
  - destruct (Mastodon_call env _ client me_call) as [e|u] eqn:Hme; simpl;
      rewrite Hasked.
    + split; [by exists [ECall client me_call]|].
      split; [rewrite !login_calls_app; simpl; by rewrite ?app_nil_r|].
      split; [done|]. split; [intros token u' _ [=]|]. intros e' [=].
    + split; [by exists [ECall client me_call]|].
      split; [rewrite !login_calls_app; simpl; by rewrite ?app_nil_r|].
      split; [intros _; exists u; split; [done|by rewrite lookup_insert_eq]|].
      split; [|intros e' [=]].
      intros token u' _ [= <-].
      split; [done|]. split; [by rewrite lookup_insert_eq|].
      split; [|done].
      rewrite lookup_insert_ne by done. by rewrite lookup_insert_eq.
Qed.

Lemma connect_logs_in_with_fixed_credentials_witness :
  let client := client_kwargs (VStr "https://example.social") in
  let asked :=
    (trace Demo.before_connect ++ [ENew client; ECall client login_call])%list in
  let r := connect Demo.env Demo.before_connect in
  (exists rest, trace r.2 = (asked ++ rest)%list) /\
  login_calls (trace r.2)
  = (login_calls (trace Demo.before_connect) ++ [login_call])%list /\
  (r.1 = inr tt ->
     exists u, Mastodon_call Demo.env asked client me_call = inr u /\
               self r.2 !! "user" = Some (OValue u)) /\
  (forall token u,
     Mastodon_call Demo.env (trace Demo.before_connect ++ [ENew client])%list
       client login_call = inr token ->
     Mastodon_call Demo.env asked client me_call = inr u ->
     r.1 = inr tt /\
     self r.2 !! "user" = Some (OValue u) /\
     self r.2 !! "mastodon" = Some (OClient client) /\
     trace r.2 = (asked ++ [ECall client me_call])%list) /\
  (forall e, Mastodon_call Demo.env (trace Demo.before_connect ++ [ENew client])%list
               client login_call = inl e ->
     r.1 = inl e /\ self r.2 !! "user" = self Demo.before_connect !! "user").
Proof.
  apply (connect_logs_in_with_fixed_credentials Demo.env Demo.before_connect
           (VAttr {[ "instance" := VAttr {[ "base_url" := VStr "https://example.social" ]};
                     "user" := VAttr {[ "username" := VStr "alice";
                                        "password" := VStr "s3cret" ]} ]})
           (VAttr {[ "base_url" := VStr "https://example.social" ]})
           (VStr "https://example.social"));
    reflexivity.
Defined.

(** At that input both calls succeed: [connect] returns, the account the
    server gave is in [self.user], and the credentials file is on the
    disk beside the configuration file, which is as it was. *)
Lemma connect_stores_account_of_me :
  let r := connect Demo.env Demo.before_connect in
  r.1 = inr tt /\
  self r.2 !! "user" = Some (OValue Demo.account) /\
  files (fs r.2) !! credentials_file Demo.env = Some "token" /\
  files (fs r.2) !! Demo.config_file = Some Demo.ready_text.
Proof. vm_compute. repeat split; reflexivity. Qed.

(** The claim C4 as the spec states it fails: the configuration stores
    alice's credentials, the run logs in once, and the login call carries
    neither her user name nor her password. *)
Lemma login_ignores_stored_credentials :
  let r := MastodonClientApp Demo.env (Demo.disk Demo.ready_text) None None in
  exists cfg,
    self r.2 !! "config" = Some (OValue cfg) /\
    stored_credentials cfg = Some (VStr "alice", VStr "s3cret") /\
    login_calls (trace r.2) = [login_call] /\
    ~ (forall c, c ∈ login_calls (trace r.2) -> passes_stored_credentials cfg c).
Proof.
  eexists. split; [vm_compute; reflexivity|].
  split; [vm_compute; reflexivity|].
  assert (Hcalls : login_calls
            (trace (MastodonClientApp Demo.env (Demo.disk Demo.ready_text) None None).2)
          = [login_call]) by (vm_compute; reflexivity).
  split; [exact Hcalls|].
  intros H. destruct (H login_call) as (u & p & Hs & Hu & Hp).
  { rewrite Hcalls. by apply list_elem_of_singleton. }
  vm_compute in Hs. injection Hs as <- <-.
  vm_compute in Hu. discriminate Hu.
Qed.

(** ** Reading and posting *)

(** C8 (amended).  [get_statuses limit] makes one call, [account_statuses]
    on the account of [self.user], with replies and reblogs excluded, not
    limited to pinned or media posts, without tag or id bounds, and with
    the given limit; it returns what the library returns, unmodified: every
    list the library sends is the list returned, however long it is. *)
Theorem get_statuses_request env st client user uid limit :
  self st !! "mastodon" = Some (OClient client) ->
  self st !! "user" = Some (OValue user) ->
  py_getattr user "id" = inr uid ->
  (0 < limit)%Z ->
  let req := statuses_call uid limit in
  let answer := Mastodon_call env (trace st) client req in
  get_statuses limit env st = (answer, add_event (ECall client req) st) /\
  c_method req = "account_statuses" /\
  c_args req = [uid] /\
  c_kwargs req !! "exclude_replies" = Some (VBool true) /\
  c_kwargs req !! "exclude_reblogs" = Some (VBool true) /\
  c_kwargs req !! "pinned" = Some (VBool false) /\
  c_kwargs req !! "only_media" = Some (VBool false) /\
  c_kwargs req !! "tagged" = Some VNone /\
  c_kwargs req !! "max_id" = Some VNone /\
  c_kwargs req !! "min_id" = Some VNone /\
  c_kwargs req !! "since_id" = Some VNone /\
  c_kwargs req !! "limit" = Some (VInt limit) /\
  dom (c_kwargs req)
  = {[ "only_media"; "pinned"; "exclude_replies"; "exclude_reblogs"; "tagged";
       "max_id"; "min_id"; "since_id"; "limit" ]} /\
  (forall posts, answer = inr (VList posts) ->
     (get_statuses limit env st).1 = inr (VList posts)).
Proof.
  intros Hm Hu Hid Hpos req answer.
  assert (Hrun : get_statuses limit env st
                 = (answer, add_event (ECall client req) st)).
  { unfold get_statuses, client_call, mbind, M_bind, get_attr, lift, history,
      ask, emit.
    rewrite Hm. simpl. rewrite Hu. simpl. rewrite Hid.
    fold (statuses_call uid limit). fold req. fold answer.
    by destruct answer. }
  split; [exact Hrun|].
  repeat (split; [reflexivity|]).
  intros posts Hsent. by rewrite Hrun.
Qed.

Lemma get_statuses_request_witness :
  let req := statuses_call (VInt 42) 5 in
  let answer := Mastodon_call Demo.env (trace Demo.session) Demo.client req in
  get_statuses 5 Demo.env Demo.session
  = (answer, add_event (ECall Demo.client req) Demo.session) /\
  c_method req = "account_statuses" /\
  c_args req = [VInt 42] /\
  c_kwargs req !! "exclude_replies" = Some (VBool true) /\
  c_kwargs req !! "exclude_reblogs" = Some (VBool true) /\
  c_kwargs req !! "pinned" = Some (VBool false) /\
  c_kwargs req !! "only_media" = Some (VBool false) /\
  c_kwargs req !! "tagged" = Some VNone /\
  c_kwargs req !! "max_id" = Some VNone /\
  c_kwargs req !! "min_id" = Some VNone /\
  c_kwargs req !! "since_id" = Some VNone /\
  c_kwargs req !! "limit" = Some (VInt 5) /\
  dom (c_kwargs req)
  = {[ "only_media"; "pinned"; "exclude_replies"; "exclude_reblogs"; "tagged";
       "max_id"; "min_id"; "since_id"; "limit" ]} /\
  (forall posts, answer = inr (VList posts) ->
     (get_statuses 5 Demo.env Demo.session).1 = inr (VList posts)).
Proof.
  apply (get_statuses_request Demo.env Demo.session Demo.client Demo.account
           (VInt 42) 5); reflexivity.
Defined.

(** The claim C8 as the spec states it fails in its bound: asked for one
    post of a library that answers with two, [get_statuses] passes the
    limit 1 on and returns both posts, since it does not cut the answer. *)
Lemma get_statuses_can_exceed_limit :
  let req := statuses_call (VInt 42) 1 in
  let r := get_statuses 1 Demo.env Demo.session in
  c_kwargs req !! "limit" = Some (VInt 1) /\
  r.2 = add_event (ECall Demo.client req) Demo.session /\
  exists posts,
    r.1 = inr (VList posts) /\
    length posts = 2%nat /\
    ~ (Z.of_nat (length posts) <= 1)%Z.
Proof.
  cbv zeta. split; [reflexivity|]. split; [vm_compute; reflexivity|].
  eexists. split; [vm_compute; reflexivity|]. split; [reflexivity|].
  simpl. lia.
Qed.

(** C9.  [post_toot message] makes one call, [status_post], with the
    message's text, its reply target and its visibility, the language
    ["en"], and no sensitivity flag, spoiler text or schedule; it returns
    what the library returns. *)
Theorem post_toot_request env st client message :
  self st !! "mastodon" = Some (OClient client) ->
  let req := post_call message in
  post_toot message env st
  = (Mastodon_call env (trace st) client req, add_event (ECall client req) st) /\
  c_method req = "status_post" /\
  c_args req = [text message] /\
  c_kwargs req !! "in_reply_to_id" = Some (in_reply_to_id message) /\
  c_kwargs req !! "visibility" = Some (visibility message) /\
  c_kwargs req !! "language" = Some (VStr "en") /\
  c_kwargs req !! "sensitive" = None /\
  c_kwargs req !! "spoiler_text" = None /\
  c_kwargs req !! "scheduled_at" = None /\
  dom (c_kwargs req) = {[ "in_reply_to_id"; "visibility"; "language" ]}.
Proof.
  intros Hm req. split.
  - unfold post_toot, client_call, mbind, M_bind, get_attr, lift, history,
      ask, emit.
    rewrite Hm. simpl. fold (post_call message). fold req.
    by destruct (Mastodon_call env (trace st) client req).
  - repeat (split; [reflexivity|]).
    unfold req, post_call. simpl. rewrite !dom_insert_L, dom_singleton_L.
    set_solver.
Qed.

Lemma post_toot_request_witness :
  let req := post_call Demo.hello in
  post_toot Demo.hello Demo.env Demo.session
  = (Mastodon_call Demo.env (trace Demo.session) Demo.client req,
     add_event (ECall Demo.client req) Demo.session) /\
  c_method req = "status_post" /\
  c_args req = [text Demo.hello] /\
  c_kwargs req !! "in_reply_to_id" = Some (in_reply_to_id Demo.hello) /\
  c_kwargs req !! "visibility" = Some (visibility Demo.hello) /\
  c_kwargs req !! "language" = Some (VStr "en") /\
  c_kwargs req !! "sensitive" = None /\
  c_kwargs req !! "spoiler_text" = None /\
  c_kwargs req !! "scheduled_at" = None /\
  dom (c_kwargs req) = {[ "in_reply_to_id"; "visibility"; "language" ]}.
Proof.
  apply (post_toot_request Demo.env Demo.session Demo.client Demo.hello).
  reflexivity.
Defined.

(** ** Initialization never saves *)


(** X2.  No run of [__init__] reaches the registration collaborator: the
    check of line 41 and the assertion of line 46 cannot both pass. *)
Lemma init_never_registers env disk config_dir base_url :
  let r := MastodonClientApp env disk config_dir base_url in
  existsb is_register (trace r.2) = false.
Proof.
  destruct (init_always_aborts env disk config_dir base_url)
    as (_ & _ & Htr & _).
  cbv zeta. induction Htr as [|ev tr Hev _ IH]; [done|].
  simpl. rewrite IH. by destruct ev.
Qed.

(** After any run of [__init__], [_save_config] raises and writes nothing. *)
Lemma save_after_init_raises env disk config_dir base_url :
  let st := (MastodonClientApp env disk config_dir base_url).2 in
  _save_config env st = (inl (AttributeError "data"), st).
Proof.
  destruct (init_always_aborts env disk config_dir base_url)
    as (_ & _ & _ & Hdata).
  by apply _save_config_no_data.
Qed.

(** C1, at the failing input.  The file is complete, the client is built,
    the login and the call of [me] succeed, and still the run raises
    [AttributeError] in [_save_config]: the configuration file is written
    zero times, and the one change on the disk is the credentials file the
    library saved at the login. *)
Theorem ready_config_is_not_saved :
  let client := client_kwargs (VStr "https://example.social") in
  let r := MastodonClientApp Demo.env (Demo.disk Demo.ready_text) None None in
  r.1 = inl (AttributeError "data") /\
  trace r.2 = [ERead Demo.config_file; ENew client;
               ECall client login_call; ECall client me_call] /\
  existsb is_write (trace r.2) = false /\
  files (fs r.2) !! Demo.config_file = Some Demo.ready_text /\
  fs r.2 = with_credentials Demo.env client (VStr "token")
             (Demo.disk Demo.ready_text).
Proof. vm_compute. repeat split; reflexivity. Qed.

(** When the login raises, the run raises the same and the file is as it
    was. *)
Lemma rejected_login_leaves_file :
  let r := MastodonClientApp Demo.env_login_fails (Demo.disk Demo.ready_text)
             None None in
  r.1 = inl (MastodonError "invalid credentials") /\
  fs r.2 = Demo.disk Demo.ready_text.
Proof. vm_compute. split; reflexivity. Qed.

(** C2, at the failing input.  The file has no user section, so [__init__]
    adds an empty one to the configuration in memory.  Saving that state
    raises and leaves the file as it was, and loading the file again gives a
    configuration without the user section. *)
Theorem save_then_load_loses_user :
  let r := MastodonClientApp Demo.env (Demo.disk Demo.registered_text) None None in
  let saved := _save_config Demo.env r.2 in
  let reloaded := _load_config Demo.env saved.2 in
  (exists cfg, self r.2 !! "config" = Some (OValue cfg) /\
               py_get cfg "user" VNone = inr (VAttr ∅)) /\
  saved.1 = inl (AttributeError "data") /\
  fs saved.2 = fs r.2 /\
  fs saved.2 = with_credentials Demo.env
                 (client_kwargs (VStr "https://example.social")) (VStr "token")
                 (Demo.disk Demo.registered_text) /\
  files (fs saved.2) !! Demo.config_file = Some Demo.registered_text /\
  reloaded.1 = inr tt /\
  (exists cfg, self reloaded.2 !! "config" = Some (OValue cfg) /\
               py_get cfg "user" VNone = inr VNone).
Proof.
  cbv zeta. split.
  { eexists. split; [vm_compute; reflexivity|]. vm_compute. reflexivity. }
  split; [vm_compute; reflexivity|].
  split; [vm_compute; reflexivity|].
  split; [vm_compute; reflexivity|].
  split; [vm_compute; reflexivity|].
  split; [vm_compute; reflexivity|].
  eexists. split; [vm_compute; reflexivity|]. vm_compute. reflexivity.
Qed.

(** C3, at the failing input.  A first-run file, which has no instance
    section, and a base URL argument: only one source of the URL is
    present, and the run raises [AttributeError] at line 41 instead of
    going on with the argument. *)
Theorem first_run_config_is_rejected :
  let r := MastodonClientApp Demo.env (Demo.disk Demo.first_run_text) None
             (Some "https://example.social") in
  r.1 = inl (AttributeError "instance") /\
  trace r.2 = [ERead Demo.config_file] /\
  fs r.2 = Demo.disk Demo.first_run_text.
Proof. vm_compute. repeat split; reflexivity. Qed.

(** C5, at the failing inputs.  [application.client_id] is absent from both
    files.  Without an instance section the run raises at line 41; with one
    it raises at the assertion of line 46.  The registration collaborator is
    called in neither run. *)
Theorem first_run_does_not_register :
  let first := MastodonClientApp Demo.env (Demo.disk Demo.first_run_text) None
                 (Some "https://example.social") in
  let stale := MastodonClientApp Demo.env (Demo.disk Demo.stale_text) None None in
  client_id_of {[ "user" := VDict {[ "username" := VStr "alice";
                                     "password" := VStr "s3cret" ]} ]} = None /\
  first.1 = inl (AttributeError "instance") /\
  existsb is_register (trace first.2) = false /\
  stale.1 = inl AssertionError /\
  existsb is_register (trace stale.2) = false.
Proof. vm_compute. repeat split; reflexivity. Qed.

(** ** The methods in closed form *)

(** What [_save_config] does, case by case. *)
Lemma _save_config_run env st :
  _save_config env st =
    match self st !! "data" with
    | None => (inl (AttributeError "data"), st)
    | Some (OValue data) =>
        match yaml_safe_dump env data with
        | inl e => (inl e, st)
        | inr output =>
            match self st !! "config_file" with
            | None => (inl (AttributeError "config_file"), st)
            | Some (OPath f) => (inr tt, written f output st)
            | Some _ => (inl TypeError, st)
            end
        end
    | Some _ => (inl TypeError, st)
    end.
Proof.
  unfold _save_config, mbind, M_bind, get_attr, ask, lift, write_file, written.
  destruct (self st !! "data") as [[data| |]|]; simpl; try done.
  destruct (yaml_safe_dump env data) as [e|output]; [done|].
  by destruct (self st !! "config_file") as [[| |]|].
Qed.

(** What [post_toot] does, case by case. *)
Lemma post_toot_run env st message :
  post_toot message env st =
    match self st !! "mastodon" with
    | None => (inl (AttributeError "mastodon"), st)
    | Some (OClient client) =>
        (Mastodon_call env (trace st) client (post_call message),
         add_event (ECall client (post_call message)) st)
    | Some _ => (inl (AttributeError "method"), st)
    end.
Proof.
  unfold post_toot, client_call, mbind, M_bind, get_attr, lift, history,
    ask, emit.
  by destruct (self st !! "mastodon") as [[| |client]|].
Qed.

(** What [get_statuses] does, case by case. *)
Lemma get_statuses_run env st limit :
  get_statuses limit env st =
    match self st !! "mastodon" with
    | None => (inl (AttributeError "mastodon"), st)
    | Some (OClient client) =>
        match self st !! "user" with
        | None => (inl (AttributeError "user"), st)
        | Some (OValue user) =>
            match py_getattr user "id" with
            | inl e => (inl e, st)
            | inr uid =>
                (Mastodon_call env (trace st) client (statuses_call uid limit),
                 add_event (ECall client (statuses_call uid limit)) st)
            end
        | Some _ => (inl TypeError, st)
        end
    | Some _ => (inl (AttributeError "method"), st)
    end.
Proof.
  unfold get_statuses, client_call, mbind, M_bind, get_attr, lift, history,
    ask, emit.
  destruct (self st !! "mastodon") as [[| |client]|]; simpl; try done.
  destruct (self st !! "user") as [[user| |]|]; simpl; try done.
Qed.

(** What [_load_config] does when it does not succeed. *)
Lemma _load_config_raises env st f text :
  self st !! "config_file" = Some (OPath f) ->
  files (fs st) !! f = Some text ->
  match yaml_safe_load env text with
  | inl e => _load_config env st = (inl e, add_event (ERead f) st)
  | inr doc =>
      mapping_of doc = None ->
      _load_config env st = (inl (AttributeError "items"), add_event (ERead f) st)
  end.
Proof.
  intros Hf Htext.
  unfold _load_config, mbind, M_bind, get_attr, read_file, ask, lift.
  rewrite Hf. simpl. rewrite Htext.
  destruct (yaml_safe_load env text) as [e|doc]; [done|].
  by destruct doc.
Qed.

(** ** Saving *)



(** X11.  The dump is computed before the file is opened: when the
    serialiser raises, [_save_config] raises the same and the file keeps
    its content (it is not truncated), with no event at all. *)
Theorem save_failure_keeps_file env st data e :
  self st !! "data" = Some (OValue data) ->
  yaml_safe_dump env data = inl e ->
  _save_config env st = (inl e, st).
Proof. intros Hdata Hdump. by rewrite _save_config_run, Hdata, Hdump. Qed.

Lemma save_failure_keeps_file_witness :
  _save_config Samples.env Samples.with_bad_data
  = (inl YAMLError, Samples.with_bad_data).
Proof.
  apply (save_failure_keeps_file Samples.env Samples.with_bad_data
           (VAttr Samples.saved_map) YAMLError); reflexivity.
Defined.

(** ** Loading *)

Lemma erase_load_wrap v : erase (load_wrap v) = erase v.
Proof. by destruct v. Qed.

Lemma erase_loaded (m : gmap string value) :
  erase (VAttr (load_wrap <$> m)) = erase (VDict m).
Proof.
  simpl. f_equal. rewrite <- map_fmap_compose. apply map_fmap_ext.
  intros k v _. apply erase_load_wrap.
Qed.

(** X8.  A successful [_load_config] changes the class of mappings and
    nothing else: the configuration has the keys of the document and,
    classes apart, its content; the file system is as it was and the file
    has been read once. *)
Theorem load_keeps_content env st f text doc m :
  self st !! "config_file" = Some (OPath f) ->
  files (fs st) !! f = Some text ->
  yaml_safe_load env text = inr doc ->
  mapping_of doc = Some m ->
  let r := _load_config env st in
  exists cfg,
    self r.2 !! "config" = Some (OValue (VAttr cfg)) /\
    dom cfg = dom m /\
    erase (VAttr cfg) = erase (VDict m) /\
    fs r.2 = fs st /\
    trace r.2 = (trace st ++ [ERead f])%list /\
    (forall name, name ≠ "config" -> self r.2 !! name = self st !! name).
Proof.
  intros Hf Htext Hdoc Hm r. subst r.
  rewrite (_load_config_run env st f text doc m Hf Htext Hdoc Hm).
  exists (load_wrap <$> m). simpl.
  split; [by rewrite lookup_insert_eq|].
  split; [by rewrite dom_fmap_L|].
  split; [apply (erase_loaded m)|].
  split; [done|]. split; [done|].
  intros name Hname. by rewrite lookup_insert_ne.
Qed.

Lemma load_keeps_content_witness :
  let r := _load_config Demo.env Demo.before_load in
  exists cfg,
    self r.2 !! "config" = Some (OValue (VAttr cfg)) /\
    dom cfg = dom Demo.nested_map /\
    erase (VAttr cfg) = erase (VDict Demo.nested_map) /\
    fs r.2 = fs Demo.before_load /\
    trace r.2 = (trace Demo.before_load ++ [ERead Demo.config_file])%list /\
    (forall name, name ≠ "config" ->
       self r.2 !! name = self Demo.before_load !! name).
Proof.
  apply (load_keeps_content Demo.env Demo.before_load Demo.config_file
           Demo.nested_text Demo.nested_doc Demo.nested_map);
    reflexivity.
Defined.

(** X9.  Loading is repeatable: a second [_load_config] reads the file
    again and leaves the object exactly as the first one left it. *)
Theorem load_twice_is_load_once env st f text doc m :
  self st !! "config_file" = Some (OPath f) ->
  files (fs st) !! f = Some text ->
  yaml_safe_load env text = inr doc ->
  mapping_of doc = Some m ->
  let once := _load_config env st in
  let twice := _load_config env once.2 in
  twice.1 = inr tt /\
  self twice.2 = self once.2 /\
  fs twice.2 = fs st /\
  trace twice.2 = (trace st ++ [ERead f; ERead f])%list.
Proof.
  intros Hf Htext Hdoc Hm once twice. subst twice once.
  rewrite (_load_config_run env st f text doc m Hf Htext Hdoc Hm). simpl.
  rewrite (_load_config_run env _ f text doc m); simpl; try done.
  - split; [done|]. split; [by rewrite insert_insert_eq|].
    split; [done|]. by rewrite <- app_assoc.
  - rewrite lookup_insert_ne by done. exact Hf.
Qed.

Lemma load_twice_is_load_once_witness :
  let once := _load_config Demo.env Demo.before_load in
  let twice := _load_config Demo.env once.2 in
  twice.1 = inr tt /\
  self twice.2 = self once.2 /\
  fs twice.2 = fs Demo.before_load /\
  trace twice.2
  = (trace Demo.before_load ++ [ERead Demo.config_file; ERead Demo.config_file])%list.
Proof.
  apply (load_twice_is_load_once Demo.env Demo.before_load Demo.config_file
           Demo.nested_text Demo.nested_doc Demo.nested_map);
    reflexivity.
Defined.



(** ** Connecting *)

(** [connect] when the instance URL cannot be read. *)
Lemma connect_run_no_url env st :
  match self st !! "config" with
  | Some (OValue cfg) =>
      match py_getattr cfg "instance" with
      | inl e => connect env st = (inl e, st)
      | inr inst =>
          match py_getattr inst "base_url" with
          | inl e => connect env st = (inl e, st)
          | inr _ => True
          end
      end
  | Some _ => connect env st = (inl TypeError, st)
  | None => connect env st = (inl (AttributeError "config"), st)
  end.
Proof.
  unfold connect, get_config, mbind, M_bind, get_attr, lift.
  destruct (self st !! "config") as [[cfg| |]|]; simpl; try done.
  destruct (py_getattr cfg "instance") as [e|inst]; [done|].
  by destruct (py_getattr inst "base_url").
Qed.

(** X13.  [connect] reads [instance.base_url] before anything else: when
    the configuration has no instance section, or the section has no
    [base_url], it raises [AttributeError] and has done nothing, so no
    client is built and nothing is sent. *)
Theorem connect_needs_instance_url env st cfg :
  self st !! "config" = Some (OValue cfg) ->
  (forall inst, py_getattr cfg "instance" = inr inst ->
     exists e, py_getattr inst "base_url" = inl e) ->
  exists name, connect env st = (inl (AttributeError name), st).
Proof.
  intros Hcfg Hno. pose proof (connect_run_no_url env st) as H.
  rewrite Hcfg in H.
  destruct (py_getattr cfg "instance") as [e|inst] eqn:Hinst.
  - destruct cfg; simpl in Hinst; try (injection Hinst as <-; eauto).
    destruct (m !! "instance"); [done|]. injection Hinst as <-. eauto.
  - destruct (Hno inst eq_refl) as [e He]. rewrite He in H.
    destruct inst; simpl in He; try (injection He as <-; eauto).
    destruct (m !! "base_url"); [done|]. injection He as <-. eauto.
Qed.

Lemma connect_needs_instance_url_witness :
  exists name,
    connect Demo.env (with_attr "config" (OValue (VAttr ∅)) Samples.fresh)
    = (inl (AttributeError name),
       with_attr "config" (OValue (VAttr ∅)) Samples.fresh).
Proof.
  apply (connect_needs_instance_url Demo.env
           (with_attr "config" (OValue (VAttr ∅)) Samples.fresh) (VAttr ∅)).
  - reflexivity.
  - intros inst H. vm_compute in H. discriminate H.
Defined.

(** X14.  [connect] stops at the first call that raises.  A constructor
    that raises leaves the object without a client and no login is sent; a
    login that raises leaves the object without an account and [me] is not
    called.  The error is the library's own. *)
Theorem connect_stops_at_first_failure env st cfg inst url :
  self st !! "config" = Some (OValue cfg) ->
  py_getattr cfg "instance" = inr inst ->
  py_getattr inst "base_url" = inr url ->
  let client := client_kwargs url in
  let r := connect env st in
  match Mastodon env (trace st) client with
  | inl e =>
      r.1 = inl e /\
      trace r.2 = (trace st ++ [ENew client])%list /\
      self r.2 = self st
  | inr _ =>
      match Mastodon_call env (trace st ++ [ENew client])%list client login_call with
      | inl e =>
          r.1 = inl e /\
          trace r.2 = (trace st ++ [ENew client; ECall client login_call])%list /\
          self r.2 !! "user" = self st !! "user"
      | inr _ =>
          trace r.2
          = (trace st ++ [ENew client; ECall client login_call;
                          ECall client me_call])%list
      end
  end.
Proof.
  intros Hcfg Hinst Hurl client r. subst r.
  pose proof (connect_run env st cfg inst url Hcfg Hinst Hurl) as Hrun.
  cbv zeta in Hrun. rewrite Hrun. clear Hrun. fold client.
  destruct (Mastodon env (trace st) client) as [e|[]]; simpl; [done|].
  destruct (Mastodon_call env (trace st ++ [ENew client])%list client login_call)
    as [e|tok]; simpl.
  - split; [done|]. split; [by rewrite <- app_assoc|].
    by rewrite lookup_insert_ne.
  - destruct (Mastodon_call env _ client me_call); simpl;
      by rewrite <- !app_assoc.
Qed.

Lemma connect_stops_at_first_failure_witness :
  let client := client_kwargs (VStr "https://example.social") in
  let r := connect Samples.env_no_client Demo.before_connect in
  match Mastodon Samples.env_no_client (trace Demo.before_connect) client with
  | inl e =>
      r.1 = inl e /\
      trace r.2 = (trace Demo.before_connect ++ [ENew client])%list /\
      self r.2 = self Demo.before_connect
  | inr _ =>
      match Mastodon_call Samples.env_no_client
              (trace Demo.before_connect ++ [ENew client])%list client login_call with
      | inl e =>
          r.1 = inl e /\
          trace r.2
          = (trace Demo.before_connect ++ [ENew client; ECall client login_call])%list /\
          self r.2 !! "user" = self Demo.before_connect !! "user"
      | inr _ =>
          trace r.2
          = (trace Demo.before_connect
             ++ [ENew client; ECall client login_call; ECall client me_call])%list
      end
  end.
Proof.
  apply (connect_stops_at_first_failure Samples.env_no_client Demo.before_connect
           (VAttr {[ "instance" := VAttr {[ "base_url" := VStr "https://example.social" ]};
                     "user" := VAttr {[ "username" := VStr "alice";
                                        "password" := VStr "s3cret" ]} ]})
           (VAttr {[ "base_url" := VStr "https://example.social" ]})
           (VStr "https://example.social"));
    reflexivity.
Defined.

(** X15.  Whatever happens, [connect] leaves the configuration in memory
    as it was and opens no file for writing: it only ever sets
    [self.mastodon] and [self.user], and the one file that can change is the
    credentials file of the current directory, which the library saves when
    the login succeeds.  The directories and every other file, the
    configuration file among them, are as they were. *)
Theorem connect_keeps_config_and_other_files env st :
  let r := connect env st in
  only_credentials env (fs st) (fs r.2) /\
  (forall d, files (fs r.2) !! path_join d "config.yaml"
             = files (fs st) !! path_join d "config.yaml") /\
  existsb is_write (trace r.2) = existsb is_write (trace st) /\
  (forall name, name ≠ "mastodon" -> name ≠ "user" ->
     self r.2 !! name = self st !! name).
Proof.
  intros r. subst r.
  assert (Hfiles : forall now : FileSystem,
            only_credentials env (fs st) now ->
            forall d, files now !! path_join d "config.yaml"
                      = files (fs st) !! path_join d "config.yaml").
  { intros now [_ H] d. apply H. intros Heq.
    apply (config_file_not_credentials d). by exists (cwd env). }
  assert (Hsame : only_credentials env (fs st) (fs st)) by (by split).
  pose proof (connect_run_no_url env st) as Hno.
  destruct (self st !! "config") as [[cfg| |]|] eqn:Hcfg;
    try (rewrite Hno; split; [exact Hsame|]; split; [by apply Hfiles|done]).
  destruct (py_getattr cfg "instance") as [e|inst] eqn:Hinst;
    [rewrite Hno; split; [exact Hsame|]; split; [by apply Hfiles|done]|].
  destruct (py_getattr inst "base_url") as [e|url] eqn:Hurl;
    [rewrite Hno; split; [exact Hsame|]; split; [by apply Hfiles|done]|].
  pose proof (connect_run env st cfg inst url Hcfg Hinst Hurl) as Hrun.
  cbv zeta in Hrun. rewrite Hrun. clear Hrun Hno.
  destruct (Mastodon env (trace st) (client_kwargs url)) as [e|[]]; simpl.
  { split; [exact Hsame|]. split; [by apply Hfiles|]. split; [|done].
    by rewrite existsb_app, orb_false_r. }
  destruct (Mastodon_call env _ _ login_call) as [e|tok]; simpl.
  { split; [exact Hsame|]. split; [by apply Hfiles|]. split.
    - by rewrite !existsb_app, !orb_false_r.
    - intros name H1 H2. by rewrite lookup_insert_ne. }
  assert (Hsaved : only_credentials env (fs st)
            {| dirs := dirs (fs st);
               files := <[credentials_file env :=
                            credentials_text env (client_kwargs url) tok]>
                          (files (fs st)) |}).
  { split; [done|]. intros p Hp. simpl. by rewrite lookup_insert_ne. }
  destruct (Mastodon_call env _ _ me_call) as [e|u]; simpl.
  - split; [exact Hsaved|]. split; [apply (Hfiles _ Hsaved)|]. split.
    + by rewrite !existsb_app, !orb_false_r.
    + intros name H1 H2. by rewrite lookup_insert_ne.
  - split; [exact Hsaved|]. split; [apply (Hfiles _ Hsaved)|]. split.
    + by rewrite !existsb_app, !orb_false_r.
    + intros name H1 H2. by rewrite !lookup_insert_ne.
Qed.

(** ** Reading and posting, at the edges *)

(** X16.  On an object that has no client yet, [get_statuses] and
    [post_toot] raise [AttributeError] and send nothing: the object, the
    file system and the trace are as they were. *)
Theorem operations_need_a_session env st limit message :
  self st !! "mastodon" = None ->
  get_statuses limit env st = (inl (AttributeError "mastodon"), st) /\
  post_toot message env st = (inl (AttributeError "mastodon"), st).
Proof.
  intros Hm. by rewrite get_statuses_run, post_toot_run, Hm.
Qed.

Lemma operations_need_a_session_witness :
  get_statuses 5 Demo.env Samples.fresh
  = (inl (AttributeError "mastodon"), Samples.fresh) /\
  post_toot Demo.hello Demo.env Samples.fresh
  = (inl (AttributeError "mastodon"), Samples.fresh).
Proof.
  apply (operations_need_a_session Demo.env Samples.fresh 5 Demo.hello).
  reflexivity.
Defined.

(** X17.  [get_statuses] and [post_toot] never change the object or the
    file system, and each sends at most one call: [account_statuses] for
    the one, [status_post] for the other. *)
Theorem operations_are_read_only env st limit message :
  let r := get_statuses limit env st in
  let p := post_toot message env st in
  self r.2 = self st /\ fs r.2 = fs st /\
  (trace r.2 = trace st \/
   exists client uid,
     trace r.2 = (trace st ++ [ECall client (statuses_call uid limit)])%list) /\
  self p.2 = self st /\ fs p.2 = fs st /\
  (trace p.2 = trace st \/
   exists client,
     trace p.2 = (trace st ++ [ECall client (post_call message)])%list).
Proof.
  intros r p. subst r p. rewrite get_statuses_run, post_toot_run.
  destruct (self st !! "mastodon") as [[| |client]|]; simpl;
    [by repeat split; try left..| |by repeat split; try left].
  destruct (self st !! "user") as [[user| |]|]; simpl;
    [|repeat split; first [done | by left | right; by eauto]..].
  destruct (py_getattr user "id") as [e|uid]; simpl;
    repeat split; first [done | by left | right; by eauto].
Qed.

(** X18.  [post_toot] keeps no record of what it has sent: posting the same
    message twice sends two identical [status_post] calls, the second one
    whatever the answer to the first was, and returns the library's answer
    to the second. *)
Theorem post_twice_posts_twice env st client message :
  self st !! "mastodon" = Some (OClient client) ->
  let req := post_call message in
  let first := post_toot message env st in
  let second := post_toot message env first.2 in
  trace second.2 = (trace st ++ [ECall client req; ECall client req])%list /\
  second.1 = Mastodon_call env (trace st ++ [ECall client req])%list client req /\
  self second.2 = self st /\
  fs second.2 = fs st.
Proof.
  intros Hm req first second. subst second first.
  rewrite (post_toot_run env st), Hm. simpl.
  rewrite post_toot_run. simpl. rewrite Hm. simpl.
  by rewrite <- app_assoc.
Qed.

Lemma post_twice_posts_twice_witness :
  let req := post_call Demo.hello in
  let first := post_toot Demo.hello Demo.env Demo.session in
  let second := post_toot Demo.hello Demo.env first.2 in
  trace second.2
  = (trace Demo.session ++ [ECall Demo.client req; ECall Demo.client req])%list /\
  second.1 = Mastodon_call Demo.env (trace Demo.session ++ [ECall Demo.client req])%list
               Demo.client req /\
  self second.2 = self Demo.session /\
  fs second.2 = fs Demo.session.
Proof.
  apply (post_twice_posts_twice Demo.env Demo.session Demo.client Demo.hello).
  reflexivity.
Defined.

(** ** Initialization, at the edges *)

Lemma samples_dir_exists text :
  config_dir_of Samples.env None ∈ dirs (Demo.disk text).
Proof.
  apply (bool_decide_unpack
           (config_dir_of Samples.env None ∈ dirs (Demo.disk text))).
  by vm_compute.
Qed.

(** X5.  A configuration file that does not parse, or whose document is
    not a mapping, stops [__init__] in [_load_config]: the error is the
    parser's, or [AttributeError] for the missing [items]; the file has
    been read, no collaborator has been called, the disk is as it was and
    the object has no configuration. *)
Theorem unreadable_config_stops_init env disk config_dir base_url text :
  config_dir_of env config_dir ∈ dirs disk ->
  files disk !! config_file_of env config_dir = Some text ->
  match yaml_safe_load env text with
  | inl _ => True
  | inr doc => mapping_of doc = None
  end ->
  let r := MastodonClientApp env disk config_dir base_url in
  r.1 = inl (match yaml_safe_load env text with
             | inl e => e
             | inr _ => AttributeError "items"
             end) /\
  trace r.2 = [ERead (config_file_of env config_dir)] /\
  fs r.2 = disk /\
  self r.2 !! "config" = None.
Proof.
  intros Hdir Hfile Hbad.
  change (wp env (__init__ config_dir base_url)
            {| self := ∅; fs := disk; trace := [] |}
            (fun r st =>
               r = inl (match yaml_safe_load env text with
                        | inl e => e
                        | inr _ => AttributeError "items"
                        end) /\
               trace st = [ERead (config_file_of env config_dir)] /\
               fs st = disk /\
               self st !! "config" = None)).
  pose proof Hfile as Hfile'.
  unfold config_file_of, config_dir_of in Hfile'.
  unfold __init__. wp_run.
  rewrite bool_decide_eq_true_2 by exact Hdir. wp_simpl.
  wp_run.
  pose proof (_load_config_raises env (located env disk config_dir)
                (config_file_of env config_dir) text) as Hrun.
  destruct (yaml_safe_load env text) as [e|doc].
  - eapply wp_eq; [apply Hrun; [apply lookup_insert_eq|exact Hfile]|].
    simpl. repeat split; by rewrite ?lookup_insert_ne, ?lookup_empty.
  - eapply wp_eq; [apply Hrun; [apply lookup_insert_eq|exact Hfile|exact Hbad]|].
    simpl. repeat split; by rewrite ?lookup_insert_ne, ?lookup_empty.
Qed.

Lemma unreadable_config_stops_init_witness :
  let r := MastodonClientApp Samples.env (Demo.disk Samples.list_text) None None in
  r.1 = inl (match yaml_safe_load Samples.env Samples.list_text with
             | inl e => e
             | inr _ => AttributeError "items"
             end) /\
  trace r.2 = [ERead (config_file_of Samples.env None)] /\
  fs r.2 = Demo.disk Samples.list_text /\
  self r.2 !! "config" = None.
Proof.
  apply (unreadable_config_stops_init Samples.env (Demo.disk Samples.list_text)
           None None Samples.list_text).
  - apply samples_dir_exists.
  - reflexivity.
  - reflexivity.
Defined.

Lemma client_id_present (m : gmap string value) cid :
  client_id_of m = Some cid ->
  exists app,
    py_get (VAttr (load_wrap <$> m)) "application" (VDict ∅) = inr app /\
    py_get app "client_id" VNone = inr cid.
Proof.
  unfold client_id_of. intros H. simpl. rewrite lookup_fmap.
  destruct (m !! "application") as [app|]; simpl; [|done].
  exists (load_wrap app). split; [done|].
  destruct app; simpl; try done; by rewrite H.
Qed.

(** X6.  A client id that is there but empty counts as absent: with an
    instance section and an [application.client_id] that Python takes for
    false (an empty string, [0], [None]), [__init__] takes the first-run
    branch and raises before it calls any collaborator, as it does when
    the id is missing. *)
Theorem blank_client_id_counts_as_first_run
    env disk config_dir base_url text doc m cid :
  config_dir_of env config_dir ∈ dirs disk ->
  files disk !! config_file_of env config_dir = Some text ->
  yaml_safe_load env text = inr doc ->
  mapping_of doc = Some m ->
  is_Some (m !! "instance") ->
  client_id_of m = Some cid ->
  truthy cid = false ->
  let r := MastodonClientApp env disk config_dir base_url in
  (exists e, r.1 = inl e) /\
  trace r.2 = [ERead (config_file_of env config_dir)] /\
  fs r.2 = disk.
Proof.
  intros Hdir Hfile Hload Hmap [inst Hinst] Hcid Hblank.
  change (wp env (__init__ config_dir base_url)
            {| self := ∅; fs := disk; trace := [] |}
            (fun r st => (exists e, r = inl e) /\
               trace st = [ERead (config_file_of env config_dir)] /\
               fs st = disk)).
  init_to_loaded Hdir Hfile Hload Hmap.
  wp_run. rewrite (loaded_getattr _ _ _ Hinst).
  wp_run. destruct (py_getattr (load_wrap inst) "base_url") as [e|url] eqn:Hurl;
    [by eauto|].
  wp_run. wp_case; [wp_run; by eauto|].
  wp_run.
  destruct (client_id_present m cid Hcid) as (app & -> & ->).
  wp_run. rewrite Hblank. wp_simpl.
  wp_run.
  rewrite (py_getattr_get _ _ VNone _ (loaded_getattr _ _ _ Hinst)).
  wp_run. rewrite (py_getattr_not_none _ _ _ Hurl). wp_simpl.
  wp_run. by eauto.
Qed.

Lemma blank_client_id_counts_as_first_run_witness :
  let r := MastodonClientApp Samples.env (Demo.disk Samples.blank_id_text)
             None None in
  (exists e, r.1 = inl e) /\
  trace r.2 = [ERead (config_file_of Samples.env None)] /\
  fs r.2 = Demo.disk Samples.blank_id_text.
Proof.
  apply (blank_client_id_counts_as_first_run Samples.env
           (Demo.disk Samples.blank_id_text) None None Samples.blank_id_text
           (VDict Samples.blank_id_map) Samples.blank_id_map (VStr "")).
  - apply samples_dir_exists.
  - reflexivity.
  - reflexivity.
  - reflexivity.
  - by eexists.
  - reflexivity.
  - reflexivity.
Defined.

Lemma loaded_get (m : gmap string value) k dflt :
  py_get (VAttr (load_wrap <$> m)) k dflt
  = inr (default dflt (load_wrap <$> m !! k)).
Proof. simpl. by rewrite lookup_fmap. Qed.

(** [connect] and then [_save_config] on an object without [data], in
    closed form. *)
Lemma connect_then_save_run env st cfg inst url :
  self st !! "config" = Some (OValue cfg) ->
  py_getattr cfg "instance" = inr inst ->
  py_getattr inst "base_url" = inr url ->
  self st !! "data" = None ->
  let client := client_kwargs url in
  let t1 := (trace st ++ [ENew client])%list in
  let t2 := (t1 ++ [ECall client login_call])%list in
  let t3 := (t2 ++ [ECall client me_call])%list in
  let r := (connect ≫= fun _ => _save_config) env st in
  self r.2 !! "config" = Some (OValue cfg) /\
  match Mastodon env (trace st) client with
  | inl e => r.1 = inl e /\ trace r.2 = t1 /\ fs r.2 = fs st
  | inr _ =>
      match Mastodon_call env t1 client login_call with
      | inl e => r.1 = inl e /\ trace r.2 = t2 /\ fs r.2 = fs st
      | inr token =>
          fs r.2 = with_credentials env client token (fs st) /\
          match Mastodon_call env t2 client me_call with
          | inl e => r.1 = inl e /\ trace r.2 = t3
          | inr u =>
              r.1 = inl (AttributeError "data") /\ trace r.2 = t3 /\
              self r.2 !! "user" = Some (OValue u)
          end
      end
  end.
Proof.
  intros Hcfg Hinst Hurl Hdata client t1 t2 t3 r. subst r t3 t2 t1.
  unfold mbind, M_bind.
  pose proof (connect_run env st cfg inst url Hcfg Hinst Hurl) as Hrun.
  cbv zeta in Hrun. rewrite Hrun. clear Hrun. fold client.
  destruct (Mastodon env (trace st) client) as [e|[]]; simpl; [done|].
  destruct (Mastodon_call env _ client login_call) as [e|tok]; simpl.
  { split; [by rewrite lookup_insert_ne|done]. }
  destruct (Mastodon_call env _ client me_call) as [e|u]; simpl.
  { split; [by rewrite lookup_insert_ne|done]. }
  rewrite _save_config_no_data
    by (simpl; by rewrite !lookup_insert_ne).
  simpl. split; [by rewrite !lookup_insert_ne|].
  split; [done|]. split; [done|]. split; [done|].
  apply lookup_insert_eq.
Qed.

Lemma only_credentials_refl env disk : only_credentials env disk disk.
Proof. by split. Qed.

Lemma only_credentials_saved env client token disk :
  only_credentials env disk (with_credentials env client token disk).
Proof. split; [done|]. intros p Hp. simpl. by rewrite lookup_insert_ne. Qed.

(** [connect] and then [_save_config], on an object without [data]: what
    every outcome has in common. *)
Lemma connect_then_save env st cfg inst url :
  self st !! "config" = Some (OValue cfg) ->
  py_getattr cfg "instance" = inr inst ->
  py_getattr inst "base_url" = inr url ->
  self st !! "data" = None ->
  let r := (connect ≫= fun _ => _save_config) env st in
  self r.2 !! "config" = Some (OValue cfg) /\
  (exists rest, trace r.2 = (trace st ++ ENew (client_kwargs url) :: rest)%list) /\
  only_credentials env (fs st) (fs r.2).
Proof.
  intros Hcfg Hinst Hurl Hdata r. subst r.
  pose proof (connect_then_save_run env st cfg inst url Hcfg Hinst Hurl Hdata)
    as [Hconfig Hrun].
  cbv zeta in Hrun. split; [exact Hconfig|].
  destruct (Mastodon env (trace st) (client_kwargs url)) as [e|[]].
  { destruct Hrun as (_ & -> & ->).
    split; [by exists []|apply only_credentials_refl]. }
  destruct (Mastodon_call env _ _ login_call) as [e|tok].
  { destruct Hrun as (_ & -> & ->).
    split; [eexists; by rewrite <- app_assoc|apply only_credentials_refl]. }
  destruct Hrun as [-> Hrun].
  split; [|apply only_credentials_saved].
  destruct (Mastodon_call env _ _ me_call) as [e|u].
  - destruct Hrun as (_ & ->). eexists. by rewrite <- !app_assoc.
  - destruct Hrun as (_ & -> & _). eexists. by rewrite <- !app_assoc.
Qed.

Lemma with_user_section_instance (m : gmap string value) inst :
  m !! "instance" = Some inst ->
  py_getattr (VAttr (with_user_section m)) "instance" = inr (load_wrap inst).
Proof.
  intros H. unfold with_user_section.
  destruct (truthy _); simpl.
  - by rewrite lookup_fmap, H.
  - by rewrite lookup_insert_ne, lookup_fmap, H.
Qed.

(** X7.  A registered configuration reaches the login with a user section:
    when the file sets [instance.base_url] and a client id, and no second
    base URL is passed, [__init__] builds the client for the stored URL
    after having given the configuration in memory an empty user section
    if the file has none (or an empty one), and having changed nothing of
    it otherwise.  The configuration file keeps its content; the one file
    that can have changed is the credentials file the library saves. *)
Theorem registered_config_reaches_login
    env disk config_dir base_url text doc m inst url cid :
  config_dir_of env config_dir ∈ dirs disk ->
  files disk !! config_file_of env config_dir = Some text ->
  yaml_safe_load env text = inr doc ->
  mapping_of doc = Some m ->
  m !! "instance" = Some inst ->
  py_getattr (load_wrap inst) "base_url" = inr url ->
  truthy url && truthy (of_opt_str base_url) = false ->
  client_id_of m = Some cid ->
  truthy cid = true ->
  let r := MastodonClientApp env disk config_dir base_url in
  self r.2 !! "config" = Some (OValue (VAttr (with_user_section m))) /\
  (exists rest,
     trace r.2 = ERead (config_file_of env config_dir)
                 :: ENew (client_kwargs url) :: rest) /\
  files (fs r.2) !! config_file_of env config_dir = Some text /\
  only_credentials env disk (fs r.2).
Proof.
  intros Hdir Hfile Hload Hmap Hinst Hurl Hone Hcid Hset.
  assert (Hkeep : forall now, only_credentials env disk now ->
            files now !! config_file_of env config_dir = Some text).
  { intros now [_ H]. rewrite <- Hfile. apply H.
    apply config_file_is_not_credentials_file. }
  change (wp env (__init__ config_dir base_url)
            {| self := ∅; fs := disk; trace := [] |}
            (fun r st =>
               self st !! "config" = Some (OValue (VAttr (with_user_section m))) /\
               (exists rest,
                  trace st = ERead (config_file_of env config_dir)
                             :: ENew (client_kwargs url) :: rest) /\
               files (fs st) !! config_file_of env config_dir = Some text /\
               only_credentials env disk (fs st))).
  init_to_loaded Hdir Hfile Hload Hmap.
  wp_run. rewrite (loaded_getattr _ _ _ Hinst).
  wp_run. rewrite Hurl.
  wp_run. rewrite Hone.
  wp_run.
  destruct (client_id_present m cid Hcid) as (app & -> & ->).
  wp_run. rewrite Hset. wp_simpl.
  wp_run. rewrite loaded_get.
  wp_run.
  pose proof (with_user_section_instance m inst Hinst) as Hwith.
  unfold with_user_section in *.
  destruct (truthy (default VNone (load_wrap <$> m !! "user"))); wp_simpl.
  - unfold wp.
    edestruct (connect_then_save env) as (H1 & H2 & H3);
      [| exact Hwith | exact Hurl | |
       split; [exact H1|split; [exact H2|split; [exact (Hkeep _ H3)|exact H3]]]].
    + apply lookup_insert_eq.
    + simpl. by rewrite !lookup_insert_ne.
  - wp_run. unfold wp.
    edestruct (connect_then_save env) as (H1 & H2 & H3);
      [| exact Hwith | exact Hurl | |
       split; [exact H1|split; [exact H2|split; [exact (Hkeep _ H3)|exact H3]]]].
    + apply lookup_insert_eq.
    + simpl. by rewrite !lookup_insert_ne.
Qed.

Lemma registered_config_reaches_login_witness :
  let r := MastodonClientApp Demo.env (Demo.disk Demo.registered_text) None None in
  self r.2 !! "config"
  = Some (OValue (VAttr (with_user_section
       {[ "instance" := VDict {[ "base_url" := VStr "https://example.social" ]};
          "application" := VDict {[ "client_id" := VStr "abc";
                                    "client_secret" := VStr "xyz" ]} ]}))) /\
  (exists rest,
     trace r.2 = ERead (config_file_of Demo.env None)
                 :: ENew (client_kwargs (VStr "https://example.social")) :: rest) /\
  files (fs r.2) !! config_file_of Demo.env None = Some Demo.registered_text /\
  only_credentials Demo.env (Demo.disk Demo.registered_text) (fs r.2).
Proof.
  apply (registered_config_reaches_login Demo.env (Demo.disk Demo.registered_text)
           None None Demo.registered_text Demo.registered_doc
           {[ "instance" := VDict {[ "base_url" := VStr "https://example.social" ]};
              "application" := VDict {[ "client_id" := VStr "abc";
                                        "client_secret" := VStr "xyz" ]} ]}
           (VDict {[ "base_url" := VStr "https://example.social" ]})
           (VStr "https://example.social") (VStr "abc")).
  - apply demo_dir_exists.
  - reflexivity.
  - reflexivity.
  - reflexivity.
  - reflexivity.
  - reflexivity.
  - reflexivity.
  - reflexivity.
  - reflexivity.
Defined.

(** X19.  On a registered configuration the errors of the library are the
    errors of [__init__], in the order of the calls: the constructor's, or
    else the login's, or else that of [me]; each stops the run where it
    happens, with the later calls not made.  When all three succeed the
    account is stored and the run ends in the [AttributeError] of
    [_save_config].  Until the login has succeeded the file system is as
    it was; from then on it is the one it was with the credentials file
    the library has saved, and nothing else. *)
Theorem registered_run_outcome
    env disk config_dir base_url text doc m inst url cid :
  config_dir_of env config_dir ∈ dirs disk ->
  files disk !! config_file_of env config_dir = Some text ->
  yaml_safe_load env text = inr doc ->
  mapping_of doc = Some m ->
  m !! "instance" = Some inst ->
  py_getattr (load_wrap inst) "base_url" = inr url ->
  truthy url && truthy (of_opt_str base_url) = false ->
  client_id_of m = Some cid ->
  truthy cid = true ->
  let client := client_kwargs url in
  let t0 := [ERead (config_file_of env config_dir)] in
  let t1 := (t0 ++ [ENew client])%list in
  let t2 := (t1 ++ [ECall client login_call])%list in
  let t3 := (t2 ++ [ECall client me_call])%list in
  let r := MastodonClientApp env disk config_dir base_url in
  files (fs r.2) !! config_file_of env config_dir = Some text /\
  match Mastodon env t0 client with
  | inl e => r.1 = inl e /\ trace r.2 = t1 /\ fs r.2 = disk
  | inr _ =>
      match Mastodon_call env t1 client login_call with
      | inl e => r.1 = inl e /\ trace r.2 = t2 /\ fs r.2 = disk
      | inr token =>
          fs r.2 = with_credentials env client token disk /\
          match Mastodon_call env t2 client me_call with
          | inl e => r.1 = inl e /\ trace r.2 = t3
          | inr u =>
              r.1 = inl (AttributeError "data") /\ trace r.2 = t3 /\
              self r.2 !! "user" = Some (OValue u)
          end
      end
  end.
Proof.
  intros Hdir Hfile Hload Hmap Hinst Hurl Hone Hcid Hset client t0 t1 t2 t3.
  subst t3 t2 t1 t0.
  set (Q := fun (r : exn + unit) (st : St) =>
    files (fs st) !! config_file_of env config_dir = Some text /\
    match Mastodon env [ERead (config_file_of env config_dir)] client with
    | inl e =>
        r = inl e /\
        trace st = ([ERead (config_file_of env config_dir)] ++ [ENew client])%list /\
        fs st = disk
    | inr _ =>
        match Mastodon_call env
                ([ERead (config_file_of env config_dir)] ++ [ENew client])%list
                client login_call with
        | inl e =>
            r = inl e /\
            trace st = (([ERead (config_file_of env config_dir)] ++ [ENew client])
                        ++ [ECall client login_call])%list /\
            fs st = disk
        | inr token =>
            fs st = with_credentials env client token disk /\
            match Mastodon_call env
                    (([ERead (config_file_of env config_dir)] ++ [ENew client])
                     ++ [ECall client login_call])%list client me_call with
            | inl e =>
                r = inl e /\
                trace st = ((([ERead (config_file_of env config_dir)] ++ [ENew client])
                             ++ [ECall client login_call])
                            ++ [ECall client me_call])%list
            | inr u =>
                r = inl (AttributeError "data") /\
                trace st = ((([ERead (config_file_of env config_dir)] ++ [ENew client])
                             ++ [ECall client login_call])
                            ++ [ECall client me_call])%list /\
                self st !! "user" = Some (OValue u)
            end
        end
    end).
  change (wp env (__init__ config_dir base_url)
            {| self := ∅; fs := disk; trace := [] |} Q).
  init_to_loaded Hdir Hfile Hload Hmap.
  wp_run. rewrite (loaded_getattr _ _ _ Hinst).
  wp_run. rewrite Hurl.
  wp_run. rewrite Hone.
  wp_run.
  destruct (client_id_present m cid Hcid) as (app & -> & ->).
  wp_run. rewrite Hset. wp_simpl.
  wp_run. rewrite loaded_get.
  wp_run.
  pose proof (with_user_section_instance m inst Hinst) as Hwith.
  unfold with_user_section in Hwith.
  destruct (truthy (default VNone (load_wrap <$> m !! "user"))); wp_simpl.
  - unfold wp, Q. split.
    + edestruct (connect_then_save env) as (_ & _ & [_ Hkeep]);
        [| exact Hwith | exact Hurl | |
         rewrite Hkeep by apply config_file_is_not_credentials_file;
         exact Hfile].
      * apply lookup_insert_eq.
      * simpl. by rewrite !lookup_insert_ne.
    + lazymatch goal with
      | |- context [(connect ≫= _) env ?s] =>
          edestruct (connect_then_save_run env s) as [_ Hrun];
            [| exact Hwith | exact Hurl | | exact Hrun]
      end.
      * apply lookup_insert_eq.
      * simpl. by rewrite !lookup_insert_ne.
  - wp_run. unfold wp, Q. split.
    + edestruct (connect_then_save env) as (_ & _ & [_ Hkeep]);
        [| exact Hwith | exact Hurl | |
         rewrite Hkeep by apply config_file_is_not_credentials_file;
         exact Hfile].
      * apply lookup_insert_eq.
      * simpl. by rewrite !lookup_insert_ne.
    + lazymatch goal with
      | |- context [(connect ≫= _) env ?s] =>
          edestruct (connect_then_save_run env s) as [_ Hrun];
            [| exact Hwith | exact Hurl | | exact Hrun]
      end.
      * apply lookup_insert_eq.
      * simpl. by rewrite !lookup_insert_ne.
Qed.

Lemma registered_run_outcome_witness :
  let client := client_kwargs (VStr "https://example.social") in
  let t0 := [ERead (config_file_of Demo.env None)] in
  let t1 := (t0 ++ [ENew client])%list in
  let t2 := (t1 ++ [ECall client login_call])%list in
  let t3 := (t2 ++ [ECall client me_call])%list in
  let r := MastodonClientApp Demo.env (Demo.disk Demo.ready_text) None None in
  files (fs r.2) !! config_file_of Demo.env None = Some Demo.ready_text /\
  match Mastodon Demo.env t0 client with
  | inl e => r.1 = inl e /\ trace r.2 = t1 /\ fs r.2 = Demo.disk Demo.ready_text
  | inr _ =>
      match Mastodon_call Demo.env t1 client login_call with
      | inl e =>
          r.1 = inl e /\ trace r.2 = t2 /\ fs r.2 = Demo.disk Demo.ready_text
      | inr token =>
          fs r.2 = with_credentials Demo.env client token
                     (Demo.disk Demo.ready_text) /\
          match Mastodon_call Demo.env t2 client me_call with
          | inl e => r.1 = inl e /\ trace r.2 = t3
          | inr u =>
              r.1 = inl (AttributeError "data") /\ trace r.2 = t3 /\
              self r.2 !! "user" = Some (OValue u)
          end
      end
  end.
Proof.
  apply (registered_run_outcome Demo.env (Demo.disk Demo.ready_text)
           None None Demo.ready_text Demo.ready_doc
           {[ "instance" := VDict {[ "base_url" := VStr "https://example.social" ]};
              "application" := VDict {[ "client_id" := VStr "abc";
                                        "client_secret" := VStr "xyz" ]};
              "user" := VDict {[ "username" := VStr "alice";
                                 "password" := VStr "s3cret" ]} ]}
           (VDict {[ "base_url" := VStr "https://example.social" ]})
           (VStr "https://example.social") (VStr "abc")).
  - apply (bool_decide_unpack
             (config_dir_of Demo.env None ∈ dirs (Demo.disk Demo.ready_text))).
    by vm_compute.
  - reflexivity.
  - reflexivity.
  - reflexivity.
  - reflexivity.
  - reflexivity.
  - reflexivity.
  - reflexivity.
  - reflexivity.
Defined.

(** Witnesses of the two facts about the instance URL. *)
Lemma duplicate_base_url_rejected_witness :
  let r := MastodonClientApp Demo.env (Demo.disk Demo.ready_text) None
             (Some "https://other.example") in
  r.1 = inl (ValueError (AlreadyHaveBaseUrl (VStr "https://example.social"))) /\
  trace r.2 = [ERead (config_file_of Demo.env None)] /\
  fs r.2 = Demo.disk Demo.ready_text.
Proof.
  apply (duplicate_base_url_rejected Demo.env (Demo.disk Demo.ready_text) None
           "https://other.example" Demo.ready_text Demo.ready_doc
           {[ "instance" := VDict {[ "base_url" := VStr "https://example.social" ]};
              "application" := VDict {[ "client_id" := VStr "abc";
                                        "client_secret" := VStr "xyz" ]};
              "user" := VDict {[ "username" := VStr "alice";
                                 "password" := VStr "s3cret" ]} ]}
           (VDict {[ "base_url" := VStr "https://example.social" ]})
           (VStr "https://example.social")).
  - apply demo_dir_exists.
  - reflexivity.
  - reflexivity.
  - reflexivity.
  - reflexivity.
  - reflexivity.
  - reflexivity.
  - discriminate.
Defined.

Lemma no_instance_section_raises_witness :
  let r := MastodonClientApp Demo.env (Demo.disk "") None
             (Some "https://example.social") in
  r.1 = inl (AttributeError "instance") /\
  trace r.2 = [ERead (config_file_of Demo.env None)] /\
  fs r.2 = Demo.disk "".
Proof.
  apply (no_instance_section_raises Demo.env (Demo.disk "") None
           (Some "https://example.social") "" VNone ∅).
  - apply demo_dir_exists.
  - reflexivity.
  - reflexivity.
  - reflexivity.
  - reflexivity.
Defined.

(** X20.  [get_statuses] does not check its limit: zero or a negative
    number is sent to the library as it is, in the same single call, and
    the library's answer is returned. *)
Theorem get_statuses_passes_any_limit env st client user uid limit :
  self st !! "mastodon" = Some (OClient client) ->
  self st !! "user" = Some (OValue user) ->
  py_getattr user "id" = inr uid ->
  (limit <= 0)%Z ->
  let req := statuses_call uid limit in
  get_statuses limit env st
  = (Mastodon_call env (trace st) client req, add_event (ECall client req) st) /\
  c_kwargs req !! "limit" = Some (VInt limit).
Proof.
  intros Hm Hu Hid _ req. split; [|reflexivity].
  by rewrite get_statuses_run, Hm, Hu, Hid.
Qed.

Lemma get_statuses_passes_any_limit_witness :
  let req := statuses_call (VInt 42) (-3) in
  get_statuses (-3) Demo.env Demo.session
  = (Mastodon_call Demo.env (trace Demo.session) Demo.client req,
     add_event (ECall Demo.client req) Demo.session) /\
  c_kwargs req !! "limit" = Some (VInt (-3)).
Proof.
  apply (get_statuses_passes_any_limit Demo.env Demo.session Demo.client
           Demo.account (VInt 42) (-3)); [reflexivity..|lia].
Defined.
